(** * GeopoliticalAnalyzer: the conversational core of [src/App.js]

    A shallow embedding of the title generator, the session ordering and
    the [ChatApplication] component (its React state, the message
    subscription effect and the asynchronous submit / analysis handlers),
    followed by the properties of the specification that concern them.

    Conventions of the embedding.
    - JavaScript strings are Rocq strings; the character predicates
      (white space, letter case) are those of the 7-bit range, on which
      [String.prototype.trim], [\s], the [i] flag and [toUpperCase] agree
      with the definitions below.
    - An [async] function is a list of pending continuations ([task]); the
      event [Settle] resumes one of them with the outcome of the promise it
      awaits.  The React state is shared by all of them.
    - Firestore is a pair of finite maps (session documents, message lists)
      with a server clock and an id allocator. *)

From Stdlib Require Import ZArith String Ascii List Lia Bool Sorted.
From Stdlib Require Import DecimalString.
From stdpp Require Import gmap strings list.
Import ListNotations.

Local Open Scope string_scope.

(** ** JavaScript string primitives used by [App.js] *)

Module Js.

(** [\s] and the characters removed by [trim], in the 7-bit range:
    TAB, LF, VT, FF, CR and SPACE. *)
Definition isWhite (c : ascii) : bool :=
  let n := nat_of_ascii c in
  Nat.eqb n 32 || (Nat.leb 9 n && Nat.leb n 13).

(** [c.toUpperCase()] and the case folding of the [i] flag for a 7-bit
    character [c]. Beyond that range [toUpperCase] follows Unicode and may
    give two characters for one; such inputs are outside the embedding
    (see [sevenBit] below). *)
Definition upperChar (c : ascii) : ascii :=
  let n := nat_of_ascii c in
  if Nat.leb 97 n && Nat.leb n 122 then ascii_of_nat (n - 32) else c.

Definition lowerChar (c : ascii) : ascii :=
  let n := nat_of_ascii c in
  if Nat.leb 65 n && Nat.leb n 90 then ascii_of_nat (n + 32) else c.

(** [s.trimStart()] *)
Fixpoint trimStart (s : string) : string :=
  match s with
  | EmptyString => EmptyString
  | String c s' => if isWhite c then trimStart s' else s
  end.

(** [s.trimEnd()] *)
Fixpoint trimEnd (s : string) : string :=
  match s with
  | EmptyString => EmptyString
  | String c s' =>
      match trimEnd s' with
      | EmptyString => if isWhite c then EmptyString else String c EmptyString
      | t => String c t
      end
  end.

(** [s.trim()] *)
Definition trim (s : string) : string := trimEnd (trimStart s).

(** [s.split(re)] for a regular expression [re] that matches exactly one
    character, the characters satisfying [sep]. The result is never empty. *)
Fixpoint split (sep : ascii -> bool) (s : string) : list string :=
  match s with
  | EmptyString => [EmptyString]
  | String c s' =>
      if sep c then EmptyString :: split sep s'
      else match split sep s' with
           | h :: t => String c h :: t
           | [] => [String c EmptyString]
           end
  end.

(** [s.replace(/c/g, '')] for a single character [c]. *)
Fixpoint removeAll (c : ascii) (s : string) : string :=
  match s with
  | EmptyString => EmptyString
  | String d s' => if Ascii.eqb c d then removeAll c s' else String d (removeAll c s')
  end.

(** Matching a literal word at the start of [s] under the [i] flag; the
    rest of [s] on success. *)
Fixpoint stripPrefixCI (w s : string) : option string :=
  match w, s with
  | EmptyString, _ => Some s
  | String a w', String b s' =>
      if Ascii.eqb (lowerChar a) (lowerChar b) then stripPrefixCI w' s' else None
  | String _ _, EmptyString => None
  end.

(** [s.replace(/^(w1|w2|...)\s+/i, '')]: the alternatives are tried in
    order, each must be followed by at least one white space character, and
    the greedy [\s+] takes all of the white space that follows. *)
Fixpoint replaceLead (ws : list string) (s : string) : string :=
  match ws with
  | [] => s
  | w :: ws' =>
      match stripPrefixCI w s with
      | Some (String c r) => if isWhite c then trimStart r else replaceLead ws' s
      | _ => replaceLead ws' s
      end
  end.

(** [s.charAt(0).toUpperCase() + s.slice(1)] *)
Definition capitalize (s : string) : string :=
  match s with
  | EmptyString => EmptyString
  | String c s' => String (upperChar c) s'
  end.

(** Truthiness of a string value: only the empty string is falsy. *)
Definition truthy (s : string) : bool :=
  match s with EmptyString => false | String _ _ => true end.

(** [hay.includes(needle)] *)
Fixpoint includes (needle hay : string) : bool :=
  String.prefix needle hay ||
  match hay with
  | EmptyString => false
  | String _ hay' => includes needle hay'
  end.

(** Template-literal rendering of a non-negative integer. *)
Definition ofNat (n : nat) : string := NilZero.string_of_uint (Nat.to_uint n).

End Js.

(** ** The title generator (App.js, lines 175-194) *)

Definition placeholderTitle : string := "New Analysis".

Definition isTerminator (c : ascii) : bool :=
  Ascii.eqb c "." || Ascii.eqb c "!" || Ascii.eqb c "?".

Definition leadWords : list string :=
  ["what"; "who"; "when"; "where"; "why"; "how";
   "explain"; "describe"; "analyze"; "discuss"].

(** The value of [firstSentence] after the two [replace] calls
    (lines 180-187), for an input that is not blank. *)
Definition titleStem (userInput : string) : string :=
  let cleanInput := Js.trim userInput in
  let sentences := Js.split isTerminator cleanInput in
  let firstSentence :=
    match sentences with
    | s0 :: _ => if Js.truthy s0 then s0 else cleanInput
    | [] => cleanInput
    end in
  let firstSentence := Js.replaceLead leadWords firstSentence in
  Js.removeAll "?" firstSentence.

Definition generateSessionTitle (userInput : string) : string :=
  if negb (Js.truthy userInput) || String.eqb (Js.trim userInput) "" then
    placeholderTitle
  else
    let firstSentence := titleStem userInput in
    if Nat.leb (String.length firstSentence) 40 then Js.capitalize firstSentence
    else Js.trim (String.substring 0 37 firstSentence) +:+ "...".

(** ** Sessions and their ordering (App.js, lines 463-467) *)

Abbreviation sessionId := nat (only parsing).
Abbreviation userId := nat (only parsing).

(** A session as the sidebar receives it: [{ id, ...doc.data() }].
    [createdAt] is [None] while the server timestamp of a local write is
    not resolved yet, otherwise the value of [toMillis()]. *)
Record session := Session {
  sessId : sessionId;
  title : string;
  createdAt : option Z;
  isPinned : bool
}.

(** [s.createdAt?.toMillis() || 0] *)
Definition millis (s : session) : Z :=
  match createdAt s with
  | Some t => if Z.eqb t 0 then 0 else t
  | None => 0
  end.

(** The comparator passed to [sort]. *)
Definition compareSessions (a b : session) : Z :=
  if isPinned a && negb (isPinned b) then (-1)
  else if negb (isPinned a) && isPinned b then 1
  else millis b - millis a.

Module JsArray.
Section Sort.
Context {A : Type} (cmp : A -> A -> Z).

Fixpoint insertBy (x : A) (l : list A) : list A :=
  match l with
  | [] => [x]
  | y :: l' => if Z.leb (cmp x y) 0 then x :: y :: l' else y :: insertBy x l'
  end.

(** [[...l].sort(cmp)]: the sort is stable, so for a consistent
    comparator its result is the ordering obtained by inserting the
    elements from the right, each in front of the first element it does
    not have to follow. *)
Definition sort (l : list A) : list A := fold_right insertBy [] l.

(** [a] may stand in front of [b]. *)
Definition before (a b : A) : Prop := (cmp a b <= 0)%Z.
End Sort.
End JsArray.

Definition sortedSessions (sessions : list session) : list session :=
  JsArray.sort compareSessions sessions.

Local Open Scope list_scope.

(** ** Messages and the Firestore collections *)

Inductive sender := user_ | bot.

Record source := Source { sourceTitle : string; sourceUrl : string }.

(** A message document. [sources] is absent on user turns and on failure
    turns; [sentAt] is the server timestamp [createdAt] of the write. *)
Record message := Message {
  msgSender : sender;
  text : string;
  sources : option (list source);
  sentAt : Z
}.

(** [users/{uid}/sessions/{sid}] and [users/{uid}/sessions/{sid}/messages].
    The message list of a session is kept in commit order, which is the
    order of [orderBy('createdAt', 'asc')] because the clock only advances. *)
Record store := Store {
  sessionDocs : gmap (nat * nat) session;
  messageDocs : gmap (nat * nat) (list message);
  clock : Z;
  nextId : nat
}.

Definition storedMessages (st : store) (u : userId) (sid : sessionId) : list message :=
  default [] (messageDocs st !! (u, sid)).

Definition storedTitle (st : store) (u : userId) (sid : sessionId) : option string :=
  title <$> sessionDocs st !! (u, sid).

(** [addDoc(collection(db, 'users', u, 'sessions'), { title, createdAt:
    serverTimestamp(), isPinned: false })], once committed. *)
Definition addSession (u : userId) (t : string) (st : store) : sessionId * store :=
  let sid := nextId st in
  (sid,
   {| sessionDocs := <[(u, sid) := Session sid t (Some (clock st)) false]> (sessionDocs st);
      messageDocs := messageDocs st;
      clock := (clock st + 1)%Z;
      nextId := S sid |}).

(** [addDoc(collection(db, 'users', u, 'sessions', sid, 'messages'), ...)],
    once committed. *)
Definition addMessage (u : userId) (sid : sessionId)
    (who : sender) (body : string) (srcs : option (list source)) (st : store) : store :=
  {| sessionDocs := sessionDocs st;
     messageDocs :=
       <[(u, sid) := storedMessages st u sid ++ [Message who body srcs (clock st)]]>
         (messageDocs st);
     clock := (clock st + 1)%Z;
     nextId := nextId st |}.

(** [updateDoc(doc(db, 'users', u, 'sessions', sid), { title: t })] *)
Definition updateTitle (u : userId) (sid : sessionId) (t : string) (st : store) : store :=
  {| sessionDocs :=
       alter (fun d => Session (sessId d) t (createdAt d) (isPinned d)) (u, sid)
             (sessionDocs st);
     messageDocs := messageDocs st;
     clock := clock st;
     nextId := nextId st |}.

(** [deleteDoc(doc(db, 'users', u, 'sessions', sid))] *)
Definition deleteSessionDoc (u : userId) (sid : sessionId) (st : store) : store :=
  {| sessionDocs := delete (u, sid) (sessionDocs st);
     messageDocs := messageDocs st;
     clock := clock st;
     nextId := nextId st |}.

(** ** The remote analysis service *)

(** The JSON body of [POST /analyze]. *)
Record request := Request {
  query : string;
  chat_history : list (sender * string)
}.

(** The body of a response that is not [ok]: [response.json()] rejects, or
    it yields an object whose [detail] may be missing. *)
Inductive errorBody :=
| Unparsable
| Parsed (detail : option string).

(** A response, once its body is read. An [ok] body carries the answer
    and, when the service sends them, the sources. When it sends none,
    [data.sources] is [undefined] and the [addDoc] of the assistant turn
    (line 401) throws at once on that field: [thrown] is the message of
    that error. *)
Inductive response :=
| Ok200 (answer : string) (srcs : list source)
| Ok200NoSources (answer : string) (thrown : string)
| NotOk (status : nat) (statusText : string) (body : errorBody).

(** How an awaited promise settles. [Rejected] on the [fetch] covers a
    transport failure and a body of an [ok] response that does not parse. *)
Inductive outcome :=
| Fulfilled
| Rejected (message : string)
| Responded (r : response).

(** ** [ChatApplication]: state, pending continuations, events *)

(** The variables a call of [getAnalysis] closes over: its arguments and
    the [user] and [messages] of the render that called [handleSubmit]. *)
Record exchange := Exchange {
  exUser : userId;
  exSession : sessionId;
  exQuery : string;
  exIsNew : bool;
  exHistory : list message
}.

(** A suspended [async] handler, named after the promise it awaits. *)
Inductive task :=
| AwaitNewChat (u : userId)
| AwaitDelete (u : userId) (sid : sessionId)
| AwaitSessionCreate (u : userId) (input initialTitle : string) (history : list message)
| AwaitUserTurn (x : exchange)
| AwaitFetch (x : exchange)
| AwaitBotTurn (x : exchange) (cleanAnswer : string) (srcs : list source)
| AwaitTitle (x : exchange) (newTitle : string)
| AwaitErrorTurn (x : exchange) (errorMsg : string).

Record world := World {
  (* useState *)
  user : option userId;
  sessions : list session;
  currentSessionId : option sessionId;
  messages : list message;
  userInput : string;
  isLoading : bool;
  error : string;
  (* live onSnapshot listeners *)
  sessionsListener : option userId;
  messagesListener : option (userId * sessionId);
  (* the outside *)
  db : store;
  tasks : list task;
  fetches : list request
}.

Definition setUser (v : option userId) (w : world) : world :=
  World v (sessions w) (currentSessionId w) (messages w) (userInput w) (isLoading w)
        (error w) (sessionsListener w) (messagesListener w) (db w) (tasks w) (fetches w).
Definition setSessions (v : list session) (w : world) : world :=
  World (user w) v (currentSessionId w) (messages w) (userInput w) (isLoading w)
        (error w) (sessionsListener w) (messagesListener w) (db w) (tasks w) (fetches w).
Definition setCurrentSessionId (v : option sessionId) (w : world) : world :=
  World (user w) (sessions w) v (messages w) (userInput w) (isLoading w)
        (error w) (sessionsListener w) (messagesListener w) (db w) (tasks w) (fetches w).
Definition setMessages (v : list message) (w : world) : world :=
  World (user w) (sessions w) (currentSessionId w) v (userInput w) (isLoading w)
        (error w) (sessionsListener w) (messagesListener w) (db w) (tasks w) (fetches w).
Definition setUserInput (v : string) (w : world) : world :=
  World (user w) (sessions w) (currentSessionId w) (messages w) v (isLoading w)
        (error w) (sessionsListener w) (messagesListener w) (db w) (tasks w) (fetches w).
Definition setIsLoading (v : bool) (w : world) : world :=
  World (user w) (sessions w) (currentSessionId w) (messages w) (userInput w) v
        (error w) (sessionsListener w) (messagesListener w) (db w) (tasks w) (fetches w).
Definition setError (v : string) (w : world) : world :=
  World (user w) (sessions w) (currentSessionId w) (messages w) (userInput w) (isLoading w)
        v (sessionsListener w) (messagesListener w) (db w) (tasks w) (fetches w).
Definition withSessionsListener (v : option userId) (w : world) : world :=
  World (user w) (sessions w) (currentSessionId w) (messages w) (userInput w) (isLoading w)
        (error w) v (messagesListener w) (db w) (tasks w) (fetches w).
Definition withMessagesListener (v : option (userId * sessionId)) (w : world) : world :=
  World (user w) (sessions w) (currentSessionId w) (messages w) (userInput w) (isLoading w)
        (error w) (sessionsListener w) v (db w) (tasks w) (fetches w).
Definition withDb (v : store) (w : world) : world :=
  World (user w) (sessions w) (currentSessionId w) (messages w) (userInput w) (isLoading w)
        (error w) (sessionsListener w) (messagesListener w) v (tasks w) (fetches w).
Definition withTasks (v : list task) (w : world) : world :=
  World (user w) (sessions w) (currentSessionId w) (messages w) (userInput w) (isLoading w)
        (error w) (sessionsListener w) (messagesListener w) (db w) v (fetches w).
Definition withFetches (v : list request) (w : world) : world :=
  World (user w) (sessions w) (currentSessionId w) (messages w) (userInput w) (isLoading w)
        (error w) (sessionsListener w) (messagesListener w) (db w) (tasks w) v.

Definition emptyStore : store := Store ∅ ∅ 0 0.

(** The component after its first render and effects, over a store [st]. *)
Definition mounted (st : store) : world :=
  World None [] None [] "" false "" None None st [] [].

(** The pair an active message subscription is bound to. *)
Definition scope (w : world) : option (userId * sessionId) :=
  match user w, currentSessionId w with
  | Some u, Some sid => Some (u, sid)
  | _, _ => None
  end.

(** *** Effects *)

(** The effect on [[user]] (lines 236-253): its cleanup releases the
    previous sessions listener, its body subscribes for the new user or
    resets the state when there is none. *)
Definition sessionsEffect (w : world) : world :=
  let w := withSessionsListener None w in
  match user w with
  | None => setCurrentSessionId None (setSessions [] w)
  | Some u => withSessionsListener (Some u) w
  end.

(** The effect on [[currentSessionId, user]] (lines 255-274): its cleanup
    releases the previous messages listener, its body clears the view when
    there is no session or no user and subscribes otherwise. *)
Definition messagesEffect (w : world) : world :=
  let w := withMessagesListener None w in
  match scope w with
  | None => setMessages [] w
  | Some sc => withMessagesListener (Some sc) w
  end.

(** React runs an effect again after a render in which one of its
    dependencies differs from the previous render. [prev] is the state of
    the previous render, [w] the state the handler left. *)
Definition runEffects (prev w : world) : world :=
  let w1 := if decide (user prev = user w) then w else sessionsEffect w in
  if decide ((currentSessionId prev, user prev) = (currentSessionId w1, user w1))
  then w1 else messagesEffect w1.

(** *** Handlers *)

(** [removeMarkdown], the default export of the package [remove-markdown]. *)
Class RemoveMarkdown := removeMarkdown : string -> string.

Section Handlers.
Context {cleaner : RemoveMarkdown}.

(** [onAuthStateChanged] callback (lines 217-223). *)
Definition onAuthState (u : option userId) (w : world) : world :=
  setMessages [] (setCurrentSessionId None (setUser u w)).

(** The [onSnapshot] callbacks (lines 244-247 and 265-268): they apply
    the snapshot they are called with, whatever the current scope is. *)
Definition onSessionsSnapshot (docs : list session) (w : world) : world :=
  setSessions docs w.

Definition onMessagesSnapshot (docs : list message) (w : world) : world :=
  setMessages docs w.

(** Firestore: a snapshot of a collection is passed to the callback of the
    listener registered for that collection, as long as the listener has
    not been unsubscribed; otherwise nothing is called. *)
Definition deliverSessions (u : userId) (docs : list session) (w : world) : world :=
  if decide (sessionsListener w = Some u) then onSessionsSnapshot docs w else w.

Definition deliverMessages (u : userId) (sid : sessionId) (docs : list message)
    (w : world) : world :=
  if decide (messagesListener w = Some (u, sid)) then onMessagesSnapshot docs w else w.

(** [createNewSession] up to its [await] (lines 289-297). *)
Definition createNewSession (w : world) : world :=
  match user w with
  | None => w
  | Some u => withTasks (tasks w ++ [AwaitNewChat u]) w
  end.

(** [deleteSession] up to its [await] (lines 309-317). *)
Definition deleteSession (sessionIdToDelete : sessionId) (w : world) : world :=
  match user w with
  | None => w
  | Some u =>
      let w :=
        if decide (currentSessionId w = Some sessionIdToDelete)
        then setMessages [] (setCurrentSessionId None w) else w in
      withTasks (tasks w ++ [AwaitDelete u sessionIdToDelete]) w
  end.

(** [getAnalysis] up to its first [await] (lines 366-374). [usr] and
    [history] are the [user] and [messages] of the closure; the result is
    the new state and the continuation left pending, if any. *)
Definition getAnalysis (usr : option userId) (history : list message)
    (queryText : string) (sid : sessionId) (isNewSession : bool)
    (w : world) : world * option task :=
  match usr with
  | None => (w, None)
  | Some u =>
      (setError "" (setIsLoading true w),
       Some (AwaitUserTurn (Exchange u sid queryText isNewSession history)))
  end.

Definition spawn (t : option task) (w : world) : world :=
  match t with
  | Some t => withTasks (tasks w ++ [t]) w
  | None => w
  end.

(** [handleSubmit] up to its [await], or to its end when a session is
    current (lines 428-455). *)
Definition handleSubmit (w : world) : world :=
  if negb (Js.truthy (Js.trim (userInput w))) || isLoading w then w
  else
    match currentSessionId w with
    | Some sid =>
        let '(w1, t) := getAnalysis (user w) (messages w) (userInput w) sid false w in
        setUserInput "" (spawn t w1)
    | None =>
        let initialTitle := generateSessionTitle (userInput w) in
        match user w with
        | Some u =>
            spawn (Some (AwaitSessionCreate u (userInput w) initialTitle (messages w))) w
        | None => setError "Failed to create new chat session" w
        end
    end.

(** The [catch] block of [getAnalysis] up to its [await] (lines 412-419). *)
Definition failed (x : exchange) (message : string) (w : world) : world * option task :=
  let errorMsg := "Sorry, the analysis failed: " +:+ message in
  (setError errorMsg w, Some (AwaitErrorTurn x errorMsg)).

(** The [finally] block of [getAnalysis]. *)
Definition finished (w : world) : world * option task :=
  (setIsLoading false w, None).

(** [errorData.detail || `An API error occurred: ${response.status}`]
    with [errorData] from [response.json().catch(...)] (lines 392-393). *)
Definition apiError (status : nat) (statusText : string) (body : errorBody) : string :=
  let detail :=
    match body with
    | Unparsable => statusText
    | Parsed d => default "" d
    end in
  if Js.truthy detail then detail
  else "An API error occurred: " +:+ Js.ofNat status.

(** Resuming a continuation with the outcome of the promise it awaits:
    the new state and the continuation left pending, if any. [None] when
    the outcome is not one the awaited promise can have. *)
Definition settle (t : task) (o : outcome) (w : world) : option (world * option task) :=
  match t, o with
  | AwaitNewChat u, Fulfilled =>
      let '(sid, st) := addSession u placeholderTitle (db w) in
      Some (setError "" (setUserInput "" (setMessages []
              (setCurrentSessionId (Some sid) (withDb st w)))), None)
  | AwaitNewChat _, Rejected _ =>
      Some (setError "Failed to create new chat session" w, None)
  | AwaitDelete u sid, Fulfilled =>
      Some (withDb (deleteSessionDoc u sid (db w)) w, None)
  | AwaitDelete _ _, Rejected _ =>
      Some (setError "Failed to delete chat session" w, None)
  | AwaitSessionCreate u input initialTitle history, Fulfilled =>
      let '(sid, st) := addSession u initialTitle (db w) in
      let w := setCurrentSessionId (Some sid) (withDb st w) in
      let '(w, t) := getAnalysis (Some u) history input sid true w in
      Some (setUserInput "" w, t)
  | AwaitSessionCreate _ _ _ _, Rejected _ =>
      Some (setError "Failed to create new chat session" w, None)
  | AwaitUserTurn x, Fulfilled =>
      let w := withDb (addMessage (exUser x) (exSession x) user_ (exQuery x) None (db w)) w in
      let chatHistoryForBackend := map (fun msg => (msgSender msg, text msg)) (exHistory x) in
      Some (withFetches (fetches w ++ [Request (exQuery x) chatHistoryForBackend]) w,
            Some (AwaitFetch x))
  | AwaitUserTurn x, Rejected m => Some (failed x m w)
  | AwaitFetch x, Responded (Ok200 answer srcs) =>
      Some (w, Some (AwaitBotTurn x (removeMarkdown answer) srcs))
  | AwaitFetch x, Responded (Ok200NoSources _ thrown) => Some (failed x thrown w)
  | AwaitFetch x, Responded (NotOk status statusText body) =>
      Some (failed x (apiError status statusText body) w)
  | AwaitFetch x, Rejected m => Some (failed x m w)
  | AwaitBotTurn x cleanAnswer srcs, Fulfilled =>
      let w :=
        withDb (addMessage (exUser x) (exSession x) bot cleanAnswer (Some srcs) (db w)) w in
      if exIsNew x || Nat.eqb (length (exHistory x)) 0
      then Some (w, Some (AwaitTitle x (generateSessionTitle (exQuery x))))
      else Some (finished w)
  | AwaitBotTurn x _ _, Rejected m => Some (failed x m w)
  | AwaitTitle x newTitle, Fulfilled =>
      Some (finished (withDb (updateTitle (exUser x) (exSession x) newTitle (db w)) w))
  | AwaitTitle x _, Rejected m => Some (failed x m w)
  | AwaitErrorTurn x errorMsg, Fulfilled =>
      Some (finished
              (withDb (addMessage (exUser x) (exSession x) bot errorMsg None (db w)) w))
  | AwaitErrorTurn _ _, Rejected _ => Some (finished w)
  | _, _ => None
  end.

(** *** Events *)

Inductive event :=
| AuthStateChanged (u : option userId)
| SessionsSnapshot (u : userId) (docs : list session)
| MessagesSnapshot (u : userId) (sid : sessionId) (docs : list message)
| Select (sid : sessionId)
| NewChat
| Delete (sid : sessionId)
| Input (s : string)
| Submit
| Settle (i : nat) (o : outcome).

(** The state a handler leaves, before the next render. The sidebar and
    the form exist only while a user is signed in (line 470), and the text
    area is disabled while [isLoading] (line 598). *)
Definition handle (e : event) (w : world) : world :=
  match e with
  | AuthStateChanged u => onAuthState u w
  | SessionsSnapshot u docs => deliverSessions u docs w
  | MessagesSnapshot u sid docs => deliverMessages u sid docs w
  | Settle i o =>
      match tasks w !! i with
      | None => w
      | Some t =>
          match settle t o w with
          | None => w
          | Some (w', Some t') => withTasks (<[i := t']> (tasks w')) w'
          | Some (w', None) => withTasks (delete i (tasks w')) w'
          end
      end
  | _ =>
      match user w with
      | None => w
      | Some _ =>
          match e with
          | Select sid => setCurrentSessionId (Some sid) w
          | NewChat => createNewSession w
          | Delete sid => deleteSession sid w
          | Input s => if isLoading w then w else setError "" (setUserInput s w)
          | Submit => handleSubmit w
          | _ => w
          end
      end
  end.

(** One event: its handler runs, then React renders and runs the effects
    of that render, all before the next event is handled. *)
Definition step (w : world) (e : event) : world := runEffects w (handle e w).

Definition run (w : world) (es : list event) : world := fold_left step es w.

End Handlers.

Arguments step : simpl never.
Arguments run : simpl never.
Arguments addMessage : simpl never.
Arguments updateTitle : simpl never.


(** ** Vocabulary of the properties *)

(** The live messages listener is the one of the current scope. *)
Definition wellSubscribed (w : world) : Prop := messagesListener w = scope w.

(** The exchange a continuation belongs to, for those of [getAnalysis]. *)
Definition exchangeOf (t : task) : option exchange :=
  match t with
  | AwaitUserTurn x | AwaitFetch x | AwaitBotTurn x _ _
  | AwaitTitle x _ | AwaitErrorTurn x _ => Some x
  | _ => None
  end.

(** The request [getAnalysis] sends for an exchange. *)
Definition requestOf (x : exchange) : request :=
  Request (exQuery x) (map (fun msg => (msgSender msg, text msg)) (exHistory x)).

(** The store after the two turns of a successful exchange. *)
Definition answered `{RemoveMarkdown} (x : exchange) (answer : string) (srcs : list source)
    (st : store) : store :=
  addMessage (exUser x) (exSession x) bot (removeMarkdown answer) (Some srcs)
    (addMessage (exUser x) (exSession x) user_ (exQuery x) None st).

(** The text of the failure turn written by the [catch] block. *)
Definition failureText (message : string) : string :=
  "Sorry, the analysis failed: " +:+ message.

(** A continuation of exchange [x] that, if it is about to write a title,
    writes the generated title of the query of [x]. *)
Definition retitles (x : exchange) (t : task) : Prop :=
  exchangeOf t = Some x /\
  match t with
  | AwaitTitle _ newTitle => newTitle = generateSessionTitle (exQuery x)
  | _ => True
  end.

(** [removeMarkdown] on answers that hold no markdown syntax, which it
    returns unchanged; used where a trace is evaluated on concrete data. *)
Definition plainAnswer : RemoveMarkdown := fun s => s.

(** ** The session menu (App.js, lines 325-358) *)

(** How an awaited [updateDoc] settles. *)
Inductive writeOutcome :=
| Committed
| Refused (message : string).

(** The state of the sidebar menus: the session whose menu is open, the
    session being renamed, and the text of the rename field. *)
Record sidebar := Sidebar {
  activeOptions : option sessionId;
  renamingSessionId : option sessionId;
  newSessionTitle : string
}.

(** [updateDoc(doc(db, 'users', u, 'sessions', sid), { isPinned: b })] *)
Definition updatePinned (u : userId) (sid : sessionId) (b : bool) (st : store) : store :=
  {| sessionDocs :=
       alter (fun d => Session (sessId d) (title d) (createdAt d) b) (u, sid)
             (sessionDocs st);
     messageDocs := messageDocs st;
     clock := clock st;
     nextId := nextId st |}.

(** [handleRename] (lines 325-329). *)
Definition handleRename (s : session) (sb : sidebar) : sidebar :=
  Sidebar None (Some (sessId s)) (title s).

(** [handleRenameSubmit] (lines 331-346), with the outcome [o] of the
    [updateDoc] it awaits. *)
Definition handleRenameSubmit (sid : sessionId) (o : writeOutcome)
    (sb : sidebar) (w : world) : sidebar * world :=
  let closed := Sidebar (activeOptions sb) None (newSessionTitle sb) in
  match user w with
  | None => (closed, w)
  | Some u =>
      if negb (Js.truthy (Js.trim (newSessionTitle sb))) then (closed, w)
      else
        match o with
        | Committed =>
            (closed, withDb (updateTitle u sid (Js.trim (newSessionTitle sb)) (db w)) w)
        | Refused _ => (sb, setError "Failed to rename chat session" w)
        end
  end.

(** [handleTogglePin] (lines 348-358), with the outcome [o] of the
    [updateDoc] it awaits. [s] is the session object of the rendering
    that was clicked. *)
Definition handleTogglePin (s : session) (o : writeOutcome)
    (sb : sidebar) (w : world) : sidebar * world :=
  match user w with
  | None => (sb, w)
  | Some u =>
      match o with
      | Committed =>
          (Sidebar None (renamingSessionId sb) (newSessionTitle sb),
           withDb (updatePinned u (sessId s) (negb (isPinned s)) (db w)) w)
      | Refused _ => (sb, setError "Failed to update chat session" w)
      end
  end.

(** ** Firebase initialisation (App.js, lines 27-51) *)

(** The keys of [firebaseConfig], each with the variable of [process.env]
    it is read from. *)
Definition firebaseConfigVars : list (string * string) :=
  [("apiKey", "REACT_APP_API_KEY");
   ("authDomain", "REACT_APP_AUTH_DOMAIN");
   ("projectId", "REACT_APP_PROJECT_ID");
   ("storageBucket", "REACT_APP_STORAGE_BUCKET");
   ("messagingSenderId", "REACT_APP_MESSAGING_SENDER_ID");
   ("appId", "REACT_APP_APP_ID")].

(** [firebaseConfig] under an environment, in which a variable is absent
    or holds a string. *)
Definition firebaseConfig (env : string -> option string) : list (string * option string) :=
  map (fun kv => (kv.1, env kv.2)) firebaseConfigVars.

(** Truthiness of a value that is [undefined] or a string. *)
Definition present (v : option string) : bool :=
  match v with Some s => Js.truthy s | None => false end.

(** [key.replace(/([A-Z])/g, '_$1')] *)
Fixpoint underscoreCapitals (s : string) : string :=
  match s with
  | EmptyString => EmptyString
  | String c s' =>
      let n := nat_of_ascii c in
      if Nat.leb 65 n && Nat.leb n 90
      then String "_" (String c (underscoreCapitals s'))
      else String c (underscoreCapitals s')
  end.

(** [s.toUpperCase()] *)
Fixpoint toUpperCase (s : string) : string :=
  match s with
  | EmptyString => EmptyString
  | String c s' => String (Js.upperChar c) (toUpperCase s')
  end.

Definition missingVar (key : string) : string :=
  "REACT_APP_" +:+ toUpperCase (underscoreCapitals key).

Definition missingKeys (env : string -> option string) : list string :=
  map fst (filter (fun kv => negb (present kv.2) = true) (firebaseConfig env)).

(** The value of [initializationError] after the [try] block: the message
    of the error thrown for missing keys, or of the error [sdk] that the
    Firebase calls throw, if any. *)
Definition initializationError (env : string -> option string) (sdk : option string)
    : option string :=
  match missingKeys env with
  | [] => sdk
  | keys =>
      Some ("The following environment variables are missing: "
            +:+ String.concat ", " (map missingVar keys)
            +:+ ". Please check your root .env file.")
  end.

(** ** The login screen (App.js, lines 108-144) *)

Record loginScreen := LoginScreen {
  email : string;
  password : string;
  isSignUp : bool;
  loginError : string;
  loading : bool
}.

Inductive authCall :=
| CreateUserWithEmailAndPassword (mail pass : string)
| SignInWithEmailAndPassword (mail pass : string)
| SignInWithPopup.

(** How an authentication promise settles; a rejection carries the [code]
    and the [message] of the error. *)
Inductive authOutcome :=
| Authenticated
| AuthError (code message : string).

(** [handleAuthAction] (lines 115-130): the call it makes and the state
    it leaves once the call has settled with [o]. *)
Definition handleAuthAction (o : authOutcome) (l : loginScreen) : authCall * loginScreen :=
  let call := if isSignUp l then CreateUserWithEmailAndPassword (email l) (password l)
              else SignInWithEmailAndPassword (email l) (password l) in
  let err := match o with Authenticated => "" | AuthError _ m => m end in
  (call, LoginScreen (email l) (password l) (isSignUp l) err false).

(** [handleGoogleSignIn] (lines 132-144). *)
Definition handleGoogleSignIn (o : authOutcome) (l : loginScreen) : authCall * loginScreen :=
  let err := match o with
             | Authenticated => ""
             | AuthError code m =>
                 if String.eqb code "auth/popup-closed-by-user" then "" else m
             end in
  (SignInWithPopup, LoginScreen (email l) (password l) (isSignUp l) err false).

(** ** The [Message] component (App.js, lines 69-106) *)

(** What the body of a message bubble shows. *)
Inductive bubble :=
| Paragraph (s : string)
| TypingIndicator.

(** [sender === 'bot' && text ? removeMarkdown(text) : text]; [text] is
    [None] for the [null] of the placeholder shown while loading. *)
Definition cleanText `{RemoveMarkdown} (who : sender) (body : option string) : option string :=
  match who, body with
  | bot, Some t => if Js.truthy t then Some (removeMarkdown t) else body
  | _, _ => body
  end.

(** [cleanText ? <p>{cleanText}</p> : <TypingIndicator />] *)
Definition renderBody `{RemoveMarkdown} (who : sender) (body : option string) : bubble :=
  match cleanText who body with
  | Some t => if Js.truthy t then Paragraph t else TypingIndicator
  | None => TypingIndicator
  end.

(** The sources a bubble lists:
    [sender === 'bot' && sources && sources.length > 0]. *)
Definition renderSources (who : sender) (srcs : option (list source)) : list source :=
  match who, srcs with
  | bot, Some l => l
  | _, _ => []
  end.

(** The bubbles of the chat window for the messages of the view. *)
Definition renderMessage `{RemoveMarkdown} (m : message) : bubble * list source :=
  (renderBody (msgSender m) (Some (text m)), renderSources (msgSender m) (sources m)).

(** ** Further vocabulary *)

(** A string of 7-bit characters, the range on which [Js.upperChar] is
    [toUpperCase]. *)
Definition sevenBit (s : string) : Prop :=
  forallb (fun c => Nat.ltb (nat_of_ascii c) 128) (list_ascii_of_string s) = true.

(** Sessions that the comparator does not tell apart. *)
Definition sameRank (a b : session) : bool :=
  Bool.eqb (isPinned a) (isPinned b) && Z.eqb (millis a) (millis b).

(** The place of a continuation in the order of the stages of
    [getAnalysis], counted from the end. A stage is not one promise: the
    request stage awaits [fetch] and then [response.json()]. *)
Definition phase (t : task) : nat :=
  match t with
  | AwaitUserTurn _ => 5
  | AwaitFetch _ => 4
  | AwaitBotTurn _ _ _ => 3
  | AwaitTitle _ _ => 2
  | AwaitErrorTurn _ _ => 1
  | _ => 0
  end.

Definition isExchangeTask (t : task) : bool :=
  match exchangeOf t with Some _ => true | None => false end.


(** While the loading flag is set, a continuation of an exchange is pending. *)
Definition loadingJustified (w : world) : Prop :=
  isLoading w = true -> existsb isExchangeTask (tasks w) = true.

(** * Properties *)

(** ** Examples *)

Example title_lead_word : generateSessionTitle "  explain   the Suez crisis. Then more" = "The Suez crisis".
Proof. vm_compute. reflexivity. Qed.

Example title_no_lead_word : generateSessionTitle "whatever happens next" = "Whatever happens next".
Proof. vm_compute. reflexivity. Qed.

Example title_long :
  generateSessionTitle "How did the Congress of Vienna reshape the European balance of power"
  = "did the Congress of Vienna reshape th...".
Proof. vm_compute. reflexivity. Qed.

Example sorted_sample :
  map sessId (sortedSessions
    [Session 1 "a" (Some 50%Z) false; Session 2 "b" None true;
     Session 3 "c" (Some 70%Z) false; Session 4 "d" (Some 10%Z) true;
     Session 5 "e" None false; Session 6 "f" (Some 70%Z) false])
  = [4; 2; 3; 6; 1; 5].
Proof. vm_compute. reflexivity. Qed.


(** ** The title generator *)

Module TitleFacts.

Lemma length_append (s1 s2 : string) :
  String.length (s1 +:+ s2) = String.length s1 + String.length s2.
Proof. induction s1 as [|c s1 IH]; simpl; [reflexivity | now rewrite IH]. Qed.

Lemma trimStart_length (s : string) :
  String.length (Js.trimStart s) <= String.length s.
Proof.
  induction s as [|c s IH]; simpl; [lia|].
  destruct (Js.isWhite c); simpl; lia.
Qed.

Lemma trimEnd_length (s : string) :
  String.length (Js.trimEnd s) <= String.length s.
Proof.
  induction s as [|c s IH]; simpl; [lia|].
  destruct (Js.trimEnd s) as [|d t]; simpl in *.
  - destruct (Js.isWhite c); simpl; lia.
  - lia.
Qed.

Lemma trim_length (s : string) :
  String.length (Js.trim s) <= String.length s.
Proof.
  unfold Js.trim.
  pose proof (trimEnd_length (Js.trimStart s)).
  pose proof (trimStart_length s). lia.
Qed.

(** Nothing is removed at the end of a string whose last character is not
    white space. *)
Lemma trimEnd_fixed (s : string) :
  forall n c, String.length s = S n -> String.get n s = Some c ->
              Js.isWhite c = false -> Js.trimEnd s = s.
Proof.
  induction s as [|d s IH]; intros n c Hlen Hget Hc; [discriminate|].
  simpl in *. destruct n as [|n].
  - destruct s; [|discriminate]. inversion Hget; subst.
    simpl. now rewrite Hc.
  - injection Hlen as Hlen. rewrite (IH n c Hlen Hget Hc).
    destruct s; [discriminate | reflexivity].
Qed.

Lemma trimStart_fixed (s : string) (c : ascii) :
  String.get 0 s = Some c -> Js.isWhite c = false -> Js.trimStart s = s.
Proof.
  destruct s as [|d s]; simpl; [discriminate|].
  intros [= ->] ->. reflexivity.
Qed.

Lemma substring_length (s : string) :
  forall n, n <= String.length s -> String.length (String.substring 0 n s) = n.
Proof.
  induction s as [|c s IH]; intros [|n] H; simpl in *; try reflexivity; try lia.
  rewrite IH; [reflexivity | lia].
Qed.

Lemma substring_get (s : string) :
  forall n k, k < n -> n <= String.length s ->
              String.get k (String.substring 0 n s) = String.get k s.
Proof.
  induction s as [|c s IH]; intros [|n] k Hk Hn; simpl in *; try lia.
  destruct k as [|k]; [reflexivity|]. apply IH; lia.
Qed.

(** A blank input has an empty stem: the stem is long only on the
    non-placeholder branch. *)
Lemma blank_stem (userInput : string) :
  negb (Js.truthy userInput) || String.eqb (Js.trim userInput) "" = true ->
  titleStem userInput = "".
Proof.
  intros H. apply orb_true_iff in H as [H|H].
  - destruct userInput; [reflexivity | discriminate].
  - apply String.eqb_eq in H. unfold titleStem. rewrite H. reflexivity.
Qed.

(** The test of [handleSubmit] rules out the placeholder branch. *)
Lemma nonblank_branch (userInput : string) :
  Js.truthy (Js.trim userInput) = true ->
  negb (Js.truthy userInput) || String.eqb (Js.trim userInput) "" = false.
Proof.
  intros H. destruct userInput as [|c s]; [discriminate H|].
  destruct (Js.trim (String c s)); [discriminate H | reflexivity].
Qed.

End TitleFacts.

(** C6 (a title is never empty) does not hold of the code: an input made
    of a question mark alone passes the blank test and is then stripped to
    the empty string, which is returned as the title; the same happens to a
    lead word followed by a question mark. Submitted with no session
    selected, such an input creates a session whose stored title is empty. *)
Theorem generateSessionTitle_empty_result :
  Js.truthy (Js.trim "?") = true /\
  generateSessionTitle "?" = "" /\
  generateSessionTitle "What ?" = "" /\
  storedTitle
    (db (run (cleaner := plainAnswer) (mounted emptyStore)
           [AuthStateChanged (Some 7); Input "?"; Submit; Settle 0 Fulfilled])) 7 0
  = Some "".
Proof. repeat split; vm_compute; reflexivity. Qed.

(** C7, as specified, fails: the title of "What is NATO expansion?" is not
    "NATO expansion". *)
Lemma nato_title_not_as_specified :
  generateSessionTitle "What is NATO expansion?" <> "NATO expansion".
Proof. apply String.eqb_neq. vm_compute. reflexivity. Qed.

(** C7, amended: the empty input yields the placeholder, and for
    "What is NATO expansion?" only the lead word "What" and the trailing
    question mark are stripped; the first remaining character is
    capitalised, which gives "Is NATO expansion". *)
Theorem title_examples :
  generateSessionTitle "" = "New Analysis" /\
  generateSessionTitle "" = placeholderTitle /\
  titleStem "What is NATO expansion?" = "is NATO expansion" /\
  generateSessionTitle "What is NATO expansion?" = "Is NATO expansion".
Proof. repeat split; vm_compute; reflexivity. Qed.

(** C8, as specified, fails: a 60-character input with a space as its 37th
    character has a stem longer than 40 characters, and its title is neither
    its first 37 characters followed by the ellipsis nor 40 characters long. *)
Lemma long_title_not_always_40 :
  let input := "aaaaaaaaaaaaaaaaaaaaaaaaaaaaaaaaaaaa bbbbbbbbbbbbbbbbbbbbbbb" in
  String.length input = 60 /\
  40 < String.length (titleStem input) /\
  generateSessionTitle input <> String.substring 0 37 input +:+ "..." /\
  String.length (generateSessionTitle input) = 39.
Proof.
  cbv zeta. split; [reflexivity|]. split; [vm_compute; lia|].
  split; [apply String.eqb_neq|]; vm_compute; reflexivity.
Qed.

(** C8, amended: for every input whose stem (the first segment after the
    lead word and the question marks are stripped) is longer than 40
    characters, the title is the first 37 characters of the stem, trimmed
    at both ends, followed by "..."; it is at most 40 characters long, and
    it is exactly the 37 characters plus "...", 40 characters in all, when
    the first and the 37th character of the stem are not white space. *)
Theorem long_title_shape (userInput : string) :
  40 < String.length (titleStem userInput) ->
  let stem := titleStem userInput in
  let t := generateSessionTitle userInput in
  t = Js.trim (String.substring 0 37 stem) +:+ "..." /\
  String.length t <= 40 /\
  (forall c0 c36,
      String.get 0 stem = Some c0 -> Js.isWhite c0 = false ->
      String.get 36 stem = Some c36 -> Js.isWhite c36 = false ->
      t = String.substring 0 37 stem +:+ "..." /\ String.length t = 40).
Proof.
  intros Hlong stem t.
  assert (Ht : t = Js.trim (String.substring 0 37 stem) +:+ "...").
  { subst t. unfold generateSessionTitle.
    destruct (negb (Js.truthy userInput) || String.eqb (Js.trim userInput) "") eqn:Hb.
    - apply TitleFacts.blank_stem in Hb. rewrite Hb in Hlong. simpl in Hlong. lia.
    - cbv zeta. fold stem.
      destruct (Nat.leb (String.length stem) 40) eqn:Hle; [|reflexivity].
      apply Nat.leb_le in Hle. subst stem. lia. }
  assert (Hsub : String.length (String.substring 0 37 stem) = 37).
  { apply TitleFacts.substring_length. subst stem. lia. }
  split; [exact Ht|]. split.
  - rewrite Ht, TitleFacts.length_append.
    pose proof (TitleFacts.trim_length (String.substring 0 37 stem)).
    simpl. lia.
  - intros c0 c36 H0 Hw0 H36 Hw36.
    assert (Hfix : Js.trim (String.substring 0 37 stem) = String.substring 0 37 stem).
    { unfold Js.trim.
      rewrite (TitleFacts.trimStart_fixed _ c0);
        [| rewrite TitleFacts.substring_get; [exact H0 | lia | subst stem; lia] | exact Hw0].
      apply (TitleFacts.trimEnd_fixed _ 36 c36); [exact Hsub | | exact Hw36].
      rewrite TitleFacts.substring_get; [exact H36 | lia | subst stem; lia]. }
    rewrite Ht, Hfix. split; [reflexivity|].
    rewrite TitleFacts.length_append, Hsub. reflexivity.
Qed.

Lemma long_title_shape_witness :
  let userInput := "How did the Congress of Vienna reshape the European balance of power" in
  let stem := titleStem userInput in
  let t := generateSessionTitle userInput in
  t = Js.trim (String.substring 0 37 stem) +:+ "..." /\
  String.length t <= 40 /\
  (forall c0 c36,
      String.get 0 stem = Some c0 -> Js.isWhite c0 = false ->
      String.get 36 stem = Some c36 -> Js.isWhite c36 = false ->
      t = String.substring 0 37 stem +:+ "..." /\ String.length t = 40).
Proof.
  apply (long_title_shape
           "How did the Congress of Vienna reshape the European balance of power").
  vm_compute. lia.
Defined.

(** ** The session ordering *)

Module SortFacts.
Section Generic.
Context {A : Type} (cmp : A -> A -> Z).

Local Abbreviation before := (JsArray.before cmp).

(** A consistent comparator: two arguments are never each strictly after
    the other, and "not after" is transitive. *)
Hypothesis cmp_total : forall a b, (0 < cmp a b)%Z -> before b a.
Hypothesis cmp_trans : forall a b c, before a b -> before b c -> before a c.

Lemma insertBy_perm (x : A) (l : list A) : JsArray.insertBy cmp x l ≡ₚ x :: l.
Proof.
  induction l as [|y l IH]; simpl; [reflexivity|].
  destruct (Z.leb (cmp x y) 0); [reflexivity|].
  rewrite IH. apply Permutation_swap.
Qed.

Lemma sort_perm (l : list A) : JsArray.sort cmp l ≡ₚ l.
Proof.
  induction l as [|x l IH]; simpl; [reflexivity|].
  fold (JsArray.sort cmp l). rewrite insertBy_perm. now rewrite IH.
Qed.

Lemma insertBy_sorted (x : A) (l : list A) :
  StronglySorted before l -> StronglySorted before (JsArray.insertBy cmp x l).
Proof.
  induction 1 as [|y l Hs IH Hy]; simpl.
  - repeat constructor.
  - destruct (Z.leb (cmp x y) 0) eqn:E.
    + apply Z.leb_le in E. constructor; [now constructor|].
      constructor; [exact E|].
      eapply Forall_impl; [exact Hy|]. intros z Hz. exact (cmp_trans _ _ _ E Hz).
    + apply Z.leb_gt in E. constructor; [exact IH|].
      rewrite insertBy_perm. constructor; [now apply cmp_total | exact Hy].
Qed.

Lemma sort_sorted (l : list A) : StronglySorted before (JsArray.sort cmp l).
Proof.
  induction l as [|x l IH]; simpl; [constructor|].
  now apply insertBy_sorted.
Qed.

(** Sorting an ordered list changes nothing. *)
Lemma sort_fixed (l : list A) : StronglySorted before l -> JsArray.sort cmp l = l.
Proof.
  induction 1 as [|x l Hs IH Hx]; simpl; [reflexivity|].
  fold (JsArray.sort cmp l). rewrite IH.
  destruct l as [|y l]; simpl; [reflexivity|].
  inversion Hx as [|? ? Hxy _]; subst.
  unfold JsArray.before in Hxy. apply Z.leb_le in Hxy. now rewrite Hxy.
Qed.

Lemma sorted_lookup (l : list A) :
  StronglySorted before l ->
  forall i j a b, i < j -> l !! i = Some a -> l !! j = Some b -> before a b.
Proof.
  induction 1 as [|x l Hs IH Hx]; intros i j a b Hij Ha Hb; [discriminate|].
  destruct j as [|j]; [lia|]. simpl in Hb.
  destruct i as [|i]; simpl in Ha.
  - injection Ha as ->. rewrite Forall_forall in Hx.
    apply Hx. eapply list_elem_of_lookup_2. exact Hb.
  - apply (IH i j); [lia | exact Ha | exact Hb].
Qed.

End Generic.

Lemma compare_before (a b : session) :
  JsArray.before compareSessions a b <->
  (isPinned a = true /\ isPinned b = false) \/
  (isPinned a = isPinned b /\ (millis b <= millis a)%Z).
Proof.
  unfold JsArray.before, compareSessions.
  destruct (isPinned a), (isPinned b); simpl; split; intros H;
    try lia; try (right; split; [reflexivity | lia]);
    try (left; split; reflexivity);
    destruct H as [[H1 H2]|[H1 H2]]; try discriminate; lia.
Qed.

Lemma compare_total (a b : session) :
  (0 < compareSessions a b)%Z -> JsArray.before compareSessions b a.
Proof.
  unfold JsArray.before, compareSessions.
  destruct (isPinned a), (isPinned b); simpl; lia.
Qed.

Lemma compare_trans (a b c : session) :
  JsArray.before compareSessions a b -> JsArray.before compareSessions b c ->
  JsArray.before compareSessions a c.
Proof.
  rewrite !compare_before.
  destruct (isPinned a), (isPinned b), (isPinned c); intros H1 H2;
    destruct H1 as [[? ?]|[? ?]]; destruct H2 as [[? ?]|[? ?]];
    try discriminate;
    first [ left; split; reflexivity | right; split; [reflexivity | lia] ].
Qed.

(** [x || 0] is [x] for a number [x], and [undefined || 0] is 0. *)
Lemma millis_createdAt (s : session) : millis s = default 0%Z (createdAt s).
Proof.
  unfold millis. destruct (createdAt s) as [t|]; simpl; [|reflexivity].
  destruct (Z.eqb t 0) eqn:E; [apply Z.eqb_eq in E; now subst | reflexivity].
Qed.

End SortFacts.

(** C9: the sidebar order is a rearrangement of the sessions in which no
    unpinned session comes before a pinned one and, among sessions with the
    same pin state, creation timestamps descend: of two sessions with a
    resolved timestamp the later one in the list has the timestamp that is
    not greater, and a session without a resolved timestamp stands where
    the timestamp 0 would, so that no session with a positive timestamp
    follows it; sorting the result again returns it unchanged. *)
Theorem sortedSessions_order (l : list session) :
  let sorted := sortedSessions l in
  sorted ≡ₚ l /\
  (forall i j a b,
      i < j -> sorted !! i = Some a -> sorted !! j = Some b ->
      (isPinned b = true -> isPinned a = true) /\
      (isPinned a = isPinned b ->
       (forall ta tb, createdAt a = Some ta -> createdAt b = Some tb -> (tb <= ta)%Z) /\
       (forall tb, createdAt a = None -> createdAt b = Some tb -> (tb <= 0)%Z) /\
       (forall ta, createdAt a = Some ta -> createdAt b = None -> (0 <= ta)%Z))) /\
  sortedSessions sorted = sorted.
Proof.
  cbv zeta. unfold sortedSessions.
  pose proof (SortFacts.sort_sorted compareSessions
                SortFacts.compare_total SortFacts.compare_trans l) as Hs.
  split; [apply SortFacts.sort_perm|]. split.
  - intros i j a b Hij Ha Hb.
    pose proof (SortFacts.sorted_lookup compareSessions _ Hs i j a b Hij Ha Hb) as H.
    apply SortFacts.compare_before in H.
    split.
    + intros Hb1. destruct H as [[H _]|[H _]]; congruence.
    + intros Heq. destruct H as [[H1 H2]|[_ H]]; [congruence|].
      rewrite !SortFacts.millis_createdAt in H.
      split; [|split].
      * intros ta tb Hta Htb. now rewrite Hta, Htb in H.
      * intros tb Hta Htb. now rewrite Hta, Htb in H.
      * intros ta Hta Htb. now rewrite Hta, Htb in H.
  - apply SortFacts.sort_fixed. exact Hs.
Qed.

(** ** The component *)

Module AppFacts.

Lemma runEffects_same (prev w : world) :
  user prev = user w -> currentSessionId prev = currentSessionId w ->
  runEffects prev w = w.
Proof.
  intros Hu Hc. unfold runEffects.
  destruct (decide (user prev = user w)) as [_|Hn]; [|contradiction].
  destruct (decide ((currentSessionId prev, user prev) = (currentSessionId w, user w)))
    as [_|Hn]; [reflexivity|].
  exfalso. apply Hn. now rewrite Hu, Hc.
Qed.

(** Effects touch the listeners, the selection and the two views only. *)
Lemma runEffects_frame (prev w : world) :
  let w' := runEffects prev w in
  user w' = user w /\ db w' = db w /\ tasks w' = tasks w /\
  fetches w' = fetches w /\ isLoading w' = isLoading w /\
  error w' = error w /\ userInput w' = userInput w.
Proof.
  unfold runEffects, sessionsEffect, messagesEffect, scope.
  destruct prev, w; simpl.
  repeat (case_decide || case_match); simpl in *; repeat split; congruence.
Qed.

Lemma runEffects_frame_at (prev w : world) :
  db (runEffects prev w) = db w /\ fetches (runEffects prev w) = fetches w.
Proof. pose proof (runEffects_frame prev w) as H. cbv zeta in H. tauto. Qed.

Lemma delete_insert {A : Type} (l : list A) (i : nat) (x : A) :
  delete i (<[i := x]> l) = delete i l.
Proof.
  revert i. induction l as [|y l IH]; intros [|i]; simpl; try reflexivity.
  now rewrite IH.
Qed.

Section WithCleaner.
Context {cleaner : RemoveMarkdown}.


(** Resuming a continuation that leaves the user and the selection alone
    triggers no effect. *)
Lemma step_settle (w w' : world) (i : nat) (t : task) (o : outcome) (k : option task) :
  tasks w !! i = Some t ->
  settle t o w = Some (w', k) ->
  user w' = user w -> currentSessionId w' = currentSessionId w ->
  step w (Settle i o) =
  withTasks (match k with
             | Some t' => <[i := t']> (tasks w')
             | None => delete i (tasks w')
             end) w'.
Proof.
  intros Ht Hs Hu Hc. unfold step, handle.
  rewrite Ht. fold settle. rewrite Hs.
  destruct k; apply runEffects_same; simpl; congruence.
Qed.

Lemma run_cons (w : world) (e : event) (es : list event) :
  run w (e :: es) = run (step w e) es.
Proof. reflexivity. Qed.

Lemma run_nil (w : world) : run w [] = w.
Proof. reflexivity. Qed.

End WithCleaner.
End AppFacts.

Module StoreFacts.

Lemma storedMessages_addMessage (u : userId) (sid : sessionId) (who : sender)
    (body : string) (srcs : option (list source)) (st : store) :
  storedMessages (addMessage u sid who body srcs st) u sid
  = storedMessages st u sid ++ [Message who body srcs (clock st)].
Proof. unfold storedMessages at 1, addMessage. simpl. now rewrite lookup_insert_eq. Qed.

Lemma storedMessages_addMessage_other (u u' : userId) (sid sid' : sessionId)
    (who : sender) (body : string) (srcs : option (list source)) (st : store) :
  (u, sid) <> (u', sid') ->
  storedMessages (addMessage u sid who body srcs st) u' sid' = storedMessages st u' sid'.
Proof.
  intros Hne. unfold storedMessages at 1, addMessage. simpl.
  now rewrite lookup_insert_ne.
Qed.

Lemma storedTitle_addMessage (u u' : userId) (sid sid' : sessionId) (who : sender)
    (body : string) (srcs : option (list source)) (st : store) :
  storedTitle (addMessage u sid who body srcs st) u' sid' = storedTitle st u' sid'.
Proof. reflexivity. Qed.

Lemma storedMessages_updateTitle (u u' : userId) (sid sid' : sessionId) (t : string)
    (st : store) :
  storedMessages (updateTitle u sid t st) u' sid' = storedMessages st u' sid'.
Proof. reflexivity. Qed.

Lemma storedTitle_updateTitle (u : userId) (sid : sessionId) (t : string) (st : store) :
  storedTitle (updateTitle u sid t st) u sid = (fun _ => t) <$> storedTitle st u sid.
Proof.
  unfold storedTitle, updateTitle. simpl. rewrite lookup_alter_eq.
  now destruct (sessionDocs st !! (u, sid)).
Qed.

Lemma storedTitle_addSession (u : userId) (t : string) (st : store) :
  storedTitle (addSession u t st).2 u (addSession u t st).1 = Some t.
Proof. unfold storedTitle, addSession. simpl. now rewrite lookup_insert_eq. Qed.

End StoreFacts.

(** ** The exchange *)

Section Exchange.
Context {cleaner : RemoveMarkdown}.


(** Only the handlers resumed by [Settle] reach the service. *)
Lemma handle_fetches (e : event) (w : world) :
  (forall i o, e <> Settle i o) -> fetches (handle e w) = fetches w.
Proof.
  intros He. destruct e; try (exfalso; eapply He; reflexivity);
    unfold handle, onAuthState, deliverSessions, deliverMessages,
      onSessionsSnapshot, onMessagesSnapshot,
      createNewSession, deleteSession, handleSubmit, getAnalysis, spawn;
    repeat (case_match || case_decide); simpl; try reflexivity.
Qed.

(** What a resumed continuation may touch: never the user, the listeners
    or the task list itself, and the request log only when the user-turn
    write of an exchange was committed. *)
Lemma settle_frame (t : task) (o : outcome) (w w' : world) (k : option task) :
  settle t o w = Some (w', k) ->
  user w' = user w /\ tasks w' = tasks w /\
  messagesListener w' = messagesListener w /\
  (fetches w' = fetches w \/
   exists x, t = AwaitUserTurn x /\ o = Fulfilled /\ k = Some (AwaitFetch x) /\
             db w' = addMessage (exUser x) (exSession x) user_ (exQuery x) None (db w) /\
             fetches w' = fetches w ++
               [Request (exQuery x) (map (fun msg => (msgSender msg, text msg)) (exHistory x))]).
Proof.
  destruct t, o as [| |[| |]]; unfold settle, failed, finished, getAnalysis, addSession;
    simpl; repeat case_match; intros [= <- <-]; simpl; repeat split; eauto 10.
Qed.

(** An exchange resumed at any of its [await]s leaves the selection alone. *)
Lemma settle_exchange_selection (t : task) (o : outcome) (w w' : world)
    (k : option task) (x : exchange) :
  exchangeOf t = Some x -> settle t o w = Some (w', k) ->
  currentSessionId w' = currentSessionId w.
Proof.
  destruct t, o as [| |[| |]]; try discriminate; intros _;
    unfold settle, failed, finished; simpl;
    repeat case_match; intros [= <- <-]; reflexivity.
Qed.

Lemma lookup_insert_pending (l : list task) (i : nat) (t t' : task) :
  l !! i = Some t -> <[i := t']> l !! i = Some t'.
Proof. intros H. apply list_lookup_insert_eq. eapply lookup_lt_Some. exact H. Qed.

(** Reducing the setters and projections of [world], nothing else. *)
Ltac wsimpl :=
  cbn [setUser setSessions setCurrentSessionId setMessages setUserInput
       setIsLoading setError withSessionsListener withMessagesListener
       withDb withTasks withFetches
       user sessions currentSessionId messages userInput isLoading error
       sessionsListener messagesListener db tasks fetches].

Ltac wsimpl_in H :=
  cbn [setUser setSessions setCurrentSessionId setMessages setUserInput
       setIsLoading setError withSessionsListener withMessagesListener
       withDb withTasks withFetches
       user sessions currentSessionId messages userInput isLoading error
       sessionsListener messagesListener db tasks fetches] in H.

(** Resuming, as the next event of a run, the continuation whose slot is
    described by [H]. *)
Ltac resume H :=
  rewrite AppFacts.run_cons; erewrite AppFacts.step_settle;
  [ | wsimpl; first [exact H | eapply lookup_insert_pending; exact H]
    | simpl; reflexivity | reflexivity | reflexivity ];
  wsimpl; rewrite ?list_insert_insert_eq, ?AppFacts.delete_insert.

(** A successful exchange that has to retitle the session: four promises
    settle, and the state changes by the two turns, the title, the request
    log and the loading flag. *)
Lemma exchange_success_retitled (w : world) (i : nat) (x : exchange)
    (answer : string) (srcs : list source) :
  tasks w !! i = Some (AwaitUserTurn x) ->
  exIsNew x || Nat.eqb (length (exHistory x)) 0 = true ->
  run w [Settle i Fulfilled; Settle i (Responded (Ok200 answer srcs));
         Settle i Fulfilled; Settle i Fulfilled]
  = withTasks (delete i (tasks w))
      (setIsLoading false
         (withFetches (fetches w ++ [requestOf x])
            (withDb (updateTitle (exUser x) (exSession x)
                       (generateSessionTitle (exQuery x))
                       (answered x answer srcs (db w))) w))).
Proof.
  intros Ht Hfirst.
  destruct w as [usr ss cur ms inp ld er sl ml st tk fs]. simpl in Ht.
  resume Ht. resume Ht.
  rewrite AppFacts.run_cons; erewrite AppFacts.step_settle;
    [ | wsimpl; eapply lookup_insert_pending; exact Ht
      | simpl; rewrite Hfirst; reflexivity | reflexivity | reflexivity ].
  wsimpl. rewrite list_insert_insert_eq.
  resume Ht. reflexivity.
Qed.

(** An exchange whose call of the service comes back with a response that
    is not [ok]: the user turn and the failure turn are stored, the error is
    shown, the loading flag is released. *)
Lemma exchange_remote_failure (w : world) (i : nat) (x : exchange)
    (status : nat) (statusText : string) (body : errorBody) :
  tasks w !! i = Some (AwaitUserTurn x) ->
  let errorMsg := failureText (apiError status statusText body) in
  run w [Settle i Fulfilled; Settle i (Responded (NotOk status statusText body));
         Settle i Fulfilled]
  = withTasks (delete i (tasks w))
      (setIsLoading false
         (setError errorMsg
            (withFetches (fetches w ++ [requestOf x])
               (withDb (addMessage (exUser x) (exSession x) bot errorMsg None
                          (addMessage (exUser x) (exSession x) user_ (exQuery x) None
                             (db w))) w)))).
Proof.
  intros Ht errorMsg.
  destruct w as [usr ss cur ms inp ld er sl ml st tk fs]. simpl in Ht.
  resume Ht. resume Ht. resume Ht. reflexivity.
Qed.

(** [handleSubmit] with a session selected starts an exchange at once. *)
Lemma step_submit_current (w : world) (u : userId) (sid : sessionId) :
  user w = Some u -> currentSessionId w = Some sid ->
  isLoading w = false -> Js.truthy (Js.trim (userInput w)) = true ->
  step w Submit
  = setUserInput ""
      (withTasks (tasks w ++ [AwaitUserTurn (Exchange u sid (userInput w) false (messages w))])
         (setError "" (setIsLoading true w))).
Proof.
  intros Hu Hc Hl Hin. unfold step, handle. rewrite Hu.
  unfold handleSubmit. rewrite Hin, Hl, Hc, Hu. simpl.
  apply AppFacts.runEffects_same; reflexivity.
Qed.

(** [handleSubmit] with no session selected only asks the store for a new
    session, titled from the input. *)
Lemma step_submit_new (w : world) (u : userId) :
  user w = Some u -> currentSessionId w = None ->
  isLoading w = false -> Js.truthy (Js.trim (userInput w)) = true ->
  step w Submit
  = withTasks (tasks w ++ [AwaitSessionCreate u (userInput w)
                             (generateSessionTitle (userInput w)) (messages w)]) w.
Proof.
  intros Hu Hc Hl Hin. unfold step, handle. rewrite Hu.
  unfold handleSubmit. rewrite Hin, Hl, Hc, Hu. simpl.
  apply AppFacts.runEffects_same; reflexivity.
Qed.

(** C2: the user turn is in the store before the service is called. The
    only event that issues a request is the resumption of [getAnalysis]
    after its user-turn write was committed, and the state in which the
    request is issued holds that turn as the last message of the session.
    When the write is rejected instead, nothing is stored and no request is
    issued, the error is shown, and however the write of the failure turn
    settles, the exchange ends with the loading flag released and the
    service never called. *)
Theorem user_turn_before_analysis :
  (forall w e,
      fetches (step w e) <> fetches w ->
      exists i x,
        e = Settle i Fulfilled /\ tasks w !! i = Some (AwaitUserTurn x) /\
        fetches (step w e) = fetches w ++
          [Request (exQuery x) (map (fun msg => (msgSender msg, text msg)) (exHistory x))] /\
        storedMessages (db (step w e)) (exUser x) (exSession x)
        = storedMessages (db w) (exUser x) (exSession x)
          ++ [Message user_ (exQuery x) None (clock (db w))]) /\
  (forall w i x m,
      tasks w !! i = Some (AwaitUserTurn x) ->
      let errorMsg := "Sorry, the analysis failed: " +:+ m in
      let w1 := step w (Settle i (Rejected m)) in
      fetches w1 = fetches w /\ db w1 = db w /\ error w1 = errorMsg /\
      tasks w1 !! i = Some (AwaitErrorTurn x errorMsg) /\
      forall o,
        o = Fulfilled \/ (exists m', o = Rejected m') ->
        let w2 := step w1 (Settle i o) in
        fetches w2 = fetches w /\ isLoading w2 = false /\ error w2 = errorMsg /\
        tasks w2 = delete i (tasks w)).
Proof.
  split.
  - intros w e Hne.
    destruct (AppFacts.runEffects_frame_at w (handle e w)) as (Hdb & Hfe).
    fold (step w e) in Hdb, Hfe.
    destruct e as [| | | | | | | |i o];
      try (exfalso; apply Hne; rewrite Hfe; apply handle_fetches; discriminate).
    unfold handle in Hdb, Hfe.
    destruct (tasks w !! i) as [t|] eqn:Ht; [|contradiction].
    fold settle in Hdb, Hfe.
    destruct (settle t o w) as [[w' k]|] eqn:Hs; [|contradiction].
    apply settle_frame in Hs as (_ & _ & _ & Hf).
    assert (Hdb' : db (step w (Settle i o)) = db w')
      by (rewrite Hdb; now destruct k).
    assert (Hfe' : fetches (step w (Settle i o)) = fetches w')
      by (rewrite Hfe; now destruct k).
    destruct Hf as [Hf|(x & -> & -> & -> & Hd & Hf)].
    + exfalso. apply Hne. now rewrite Hfe'.
    + exists i, x. split; [reflexivity|]. split; [exact Ht|].
      rewrite Hfe', Hf, Hdb', Hd. split; [reflexivity|].
      apply StoreFacts.storedMessages_addMessage.
  - intros w i x m Ht errorMsg w1.
    assert (E1 : w1 = withTasks (<[i := AwaitErrorTurn x errorMsg]> (tasks w))
                            (setError errorMsg w)).
    { subst w1.
      now rewrite (AppFacts.step_settle w _ i _ (Rejected m) _ Ht eq_refl). }
    assert (Hi : i < length (tasks w)) by (eapply lookup_lt_Some; exact Ht).
    assert (Ht1 : tasks w1 !! i = Some (AwaitErrorTurn x errorMsg)).
    { rewrite E1. simpl. now apply list_lookup_insert_eq. }
    split; [now rewrite E1|]. split; [now rewrite E1|]. split; [now rewrite E1|].
    split; [exact Ht1|].
    intros o Ho w2. subst w2.
    destruct Ho as [->|[m' ->]].
    + rewrite (AppFacts.step_settle w1 _ i _ Fulfilled _ Ht1 eq_refl)
        by reflexivity.
      rewrite E1; simpl; repeat split. apply AppFacts.delete_insert.
    + rewrite (AppFacts.step_settle w1 _ i _ (Rejected m') _ Ht1 eq_refl)
        by reflexivity.
      rewrite E1; simpl; repeat split. apply AppFacts.delete_insert.
Qed.

(** C3, amended: in a session that holds no message and shows none, one
    successful exchange leaves exactly two messages, the user turn and then
    the assistant turn, and sets the title to the generated title of the
    submitted text. (The generated title is not compared with the
    placeholder: the generator can return that very text.) *)
Theorem first_exchange (w : world) (u : userId) (sid : sessionId) (d : session)
    (answer : string) (srcs : list source) :
  user w = Some u -> currentSessionId w = Some sid ->
  isLoading w = false -> Js.truthy (Js.trim (userInput w)) = true ->
  messages w = [] -> storedMessages (db w) u sid = [] ->
  sessionDocs (db w) !! (u, sid) = Some d ->
  let i := length (tasks w) in
  let w' := run w [Submit; Settle i Fulfilled; Settle i (Responded (Ok200 answer srcs));
                   Settle i Fulfilled; Settle i Fulfilled] in
  storedMessages (db w') u sid
  = [Message user_ (userInput w) None (clock (db w));
     Message bot (removeMarkdown answer) (Some srcs) (clock (db w) + 1)] /\
  storedTitle (db w') u sid = Some (generateSessionTitle (userInput w)) /\
  isLoading w' = false /\ tasks w' = tasks w.
Proof.
  intros Hu Hc Hl Hin Hms Hst Hd i w'. subst w'.
  rewrite AppFacts.run_cons, (step_submit_current w u sid Hu Hc Hl Hin).
  rewrite exchange_success_retitled with (x := Exchange u sid (userInput w) false (messages w)).
  - wsimpl. simpl exUser; simpl exSession; simpl exQuery.
    rewrite StoreFacts.storedMessages_updateTitle, StoreFacts.storedTitle_updateTitle.
    unfold answered. simpl exUser; simpl exSession; simpl exQuery.
    rewrite !StoreFacts.storedMessages_addMessage, !StoreFacts.storedTitle_addMessage, Hst.
    unfold storedTitle. rewrite Hd.
    repeat split. subst i. rewrite delete_middle. apply app_nil_r.
  - wsimpl. subst i. now apply list_lookup_middle.
  - simpl. now rewrite Hms.
Qed.

(** C4: in an exchange whose call of the service is answered with a
    response that is not [ok] and whose body is [{detail: "rate limited"}],
    once the failure turn is written the session holds, after what it held
    before, the user turn and one assistant turn whose text contains
    "rate limited"; the loading flag is false, the same text is the error
    shown, and no session document, hence no title, has changed. *)
Theorem rate_limited_exchange (w : world) (i : nat) (x : exchange)
    (status : nat) (statusText : string) :
  tasks w !! i = Some (AwaitUserTurn x) ->
  let w' := run w [Settle i Fulfilled;
                   Settle i (Responded (NotOk status statusText
                                          (Parsed (Some "rate limited"))));
                   Settle i Fulfilled] in
  let errorMsg := "Sorry, the analysis failed: rate limited" in
  storedMessages (db w') (exUser x) (exSession x)
  = storedMessages (db w) (exUser x) (exSession x)
    ++ [Message user_ (exQuery x) None (clock (db w));
        Message bot errorMsg None (clock (db w) + 1)] /\
  Js.includes "rate limited" errorMsg = true /\
  isLoading w' = false /\ error w' = errorMsg /\
  sessionDocs (db w') = sessionDocs (db w) /\
  tasks w' = delete i (tasks w).
Proof.
  intros Ht w' errorMsg. subst w'.
  rewrite (exchange_remote_failure w i x status statusText _ Ht).
  wsimpl. rewrite !StoreFacts.storedMessages_addMessage, <- app_assoc.
  repeat split.
Qed.

(** What an event that resumes a continuation leaves, whatever the
    effects that follow. *)
Lemma step_settle_frame (w w' : world) (i : nat) (t : task) (o : outcome)
    (k : option task) :
  tasks w !! i = Some t -> settle t o w = Some (w', k) ->
  let w1 := step w (Settle i o) in
  db w1 = db w' /\ fetches w1 = fetches w' /\
  currentSessionId w1 = currentSessionId w' /\
  tasks w1 = match k with
             | Some t' => <[i := t']> (tasks w)
             | None => delete i (tasks w)
             end.
Proof.
  intros Ht Hs w1. subst w1. unfold step, handle. rewrite Ht, Hs.
  destruct (settle_frame _ _ _ _ _ Hs) as (Hu & Htk & _ & _).
  set (h := match k with
            | Some t' => withTasks (<[i:=t']> (tasks w')) w'
            | None => withTasks (delete i (tasks w')) w'
            end).
  assert (Hh : user h = user w /\ db h = db w' /\ fetches h = fetches w' /\
               currentSessionId h = currentSessionId w' /\
               tasks h = match k with
                         | Some t' => <[i := t']> (tasks w)
                         | None => delete i (tasks w)
                         end).
  { subst h. destruct k; wsimpl; rewrite Htk; repeat split; exact Hu. }
  destruct Hh as (Hhu & Hhd & Hhf & Hhc & Hht).
  replace (match k with
           | Some t' => withTasks (<[i:=t']> (tasks w')) w'
           | None => withTasks (delete i (tasks w')) w'
           end) with h by reflexivity.
  destruct (AppFacts.runEffects_frame w h) as (_ & Hd & Htk' & Hf & _).
  rewrite Hd, Hf, Htk', Hhd, Hhf, Hht. repeat split.
  unfold runEffects.
  destruct (decide (user w = user h)) as [_|Hn]; [|congruence].
  case_decide; [exact Hhc|]. unfold messagesEffect. wsimpl.
  destruct (scope (withMessagesListener None h)); exact Hhc.
Qed.

(** An event that finds nothing to resume changes nothing. *)
Lemma step_settle_idle (w : world) (i : nat) (o : outcome) :
  tasks w !! i = None -> step w (Settle i o) = w.
Proof.
  intros Ht. unfold step, handle. rewrite Ht.
  now apply AppFacts.runEffects_same.
Qed.

Lemma step_settle_mismatch (w : world) (i : nat) (t : task) (o : outcome) :
  tasks w !! i = Some t -> settle t o w = None -> step w (Settle i o) = w.
Proof.
  intros Ht Hs. unfold step, handle. rewrite Ht, Hs.
  now apply AppFacts.runEffects_same.
Qed.

Lemma settle_keeps_title (x : exchange) (t : task) (o : outcome) (w w' : world)
    (k : option task) :
  retitles x t -> settle t o w = Some (w', k) ->
  storedTitle (db w) (exUser x) (exSession x) = Some (generateSessionTitle (exQuery x)) ->
  storedTitle (db w') (exUser x) (exSession x) = Some (generateSessionTitle (exQuery x)) /\
  match k with Some t' => retitles x t' | None => True end.
Proof.
  intros [Hx HT] Hs Hst.
  destruct t; try discriminate; injection Hx as ->;
    destruct o as [| |[| |]]; try discriminate;
    unfold settle, failed, finished in Hs; simpl in Hs;
    try match type of Hs with
        | context [if ?b then _ else _] => destruct b
        end;
    injection Hs as <- <-; wsimpl;
    rewrite ?StoreFacts.storedTitle_addMessage, ?StoreFacts.storedTitle_updateTitle, ?Hst;
    unfold retitles; simpl; subst; auto.
Qed.

(** Once the session of [x] carries the generated title of its query, no
    way for the exchange to go on changes it. [l] are the handlers that
    were pending before the exchange, which are not resumed. *)
Lemma title_settled (x : exchange) (l : list task) (outcomes : list outcome) :
  forall w,
    storedTitle (db w) (exUser x) (exSession x) = Some (generateSessionTitle (exQuery x)) ->
    tasks w = l \/ (exists t, tasks w = l ++ [t] /\ retitles x t) ->
    storedTitle (db (run w (map (Settle (length l)) outcomes))) (exUser x) (exSession x)
    = Some (generateSessionTitle (exQuery x)).
Proof.
  induction outcomes as [|o os IH]; intros w Hst Htk; [exact Hst|].
  simpl map. rewrite AppFacts.run_cons.
  destruct Htk as [Htk|(t & Htk & Hr)].
  - rewrite step_settle_idle; [apply IH; auto|].
    rewrite Htk. apply lookup_ge_None_2. lia.
  - assert (Ht : tasks w !! length l = Some t)
      by (rewrite Htk; now apply list_lookup_middle).
    destruct (settle t o w) as [[w' k]|] eqn:Hs.
    + destruct (settle_keeps_title x t o w w' k Hr Hs Hst) as (Hst' & Hk).
      destruct (step_settle_frame w w' _ t o k Ht Hs) as (Hd & _ & _ & Htk').
      apply IH; [now rewrite Hd|].
      rewrite Htk', Htk. destruct k as [t'|].
      * right. exists t'. split; [|exact Hk].
        replace (length l) with (length l + 0) by lia.
        now rewrite insert_app_r.
      * left. rewrite delete_middle. apply app_nil_r.
    + rewrite (step_settle_mismatch w _ t o Ht Hs). apply IH; eauto.
Qed.

(** C10: a submission with no session selected computes the title from
    the input before anything is written (by the branch of the generator
    that does not return the placeholder constant), the session document is
    created with that title while the session holds no message yet and the
    service has not been called, and however the exchange that follows
    settles, the title of the session stays the generated one. *)
Theorem implicit_session_titled (w : world) (u : userId) (outcomes : list outcome) :
  user w = Some u -> currentSessionId w = None ->
  isLoading w = false -> Js.truthy (Js.trim (userInput w)) = true ->
  let i := length (tasks w) in
  let sid := nextId (db w) in
  let input := userInput w in
  let w0 := step w Submit in
  let w1 := step w0 (Settle i Fulfilled) in
  (db w0 = db w /\
   tasks w0 = tasks w ++
     [AwaitSessionCreate u input (generateSessionTitle input) (messages w)]) /\
  generateSessionTitle input
  = (let stem := titleStem input in
     if Nat.leb (String.length stem) 40 then Js.capitalize stem
     else Js.trim (String.substring 0 37 stem) +:+ "...") /\
  (sessionDocs (db w1) !! (u, sid)
   = Some (Session sid (generateSessionTitle input) (Some (clock (db w))) false) /\
   messageDocs (db w1) = messageDocs (db w) /\
   fetches w1 = fetches w /\
   currentSessionId w1 = Some sid /\
   tasks w1 = tasks w ++ [AwaitUserTurn (Exchange u sid input true (messages w))]) /\
  storedTitle (db (run w1 (map (Settle i) outcomes))) u sid
  = Some (generateSessionTitle input).
Proof.
  intros Hu Hc Hl Hin i sid input w0 w1.
  assert (E0 : w0 = withTasks (tasks w ++ [AwaitSessionCreate u input
                                 (generateSessionTitle input) (messages w)]) w)
    by (apply step_submit_new; assumption).
  assert (Ht0 : tasks w0 !! i
                = Some (AwaitSessionCreate u input (generateSessionTitle input) (messages w)))
    by (rewrite E0; wsimpl; now apply list_lookup_middle).
  pose (x := Exchange u sid input true (messages w)).
  assert (Hs : settle (AwaitSessionCreate u input (generateSessionTitle input) (messages w))
                 Fulfilled w0
               = Some (setUserInput ""
                         (setError "" (setIsLoading true
                            (setCurrentSessionId (Some sid)
                               (withDb (addSession u (generateSessionTitle input) (db w)).2
                                  w0)))),
                       Some (AwaitUserTurn x)))
    by (rewrite E0; reflexivity).
  destruct (step_settle_frame w0 _ i _ Fulfilled _ Ht0 Hs) as (Hd & Hf & Hcur & Htk).
  fold w1 in Hd, Hf, Hcur, Htk. wsimpl_in Hd. wsimpl_in Hf. wsimpl_in Hcur.
  assert (Htk1 : tasks w1 = tasks w ++ [AwaitUserTurn x]).
  { rewrite Htk, E0. wsimpl. subst i.
    replace (length (tasks w)) with (length (tasks w) + 0) by lia.
    now rewrite insert_app_r. }
  assert (Hdoc : sessionDocs (db w1) !! (u, sid)
                 = Some (Session sid (generateSessionTitle input) (Some (clock (db w))) false)).
  { rewrite Hd. unfold addSession. simpl. now rewrite lookup_insert_eq. }
  split; [rewrite E0; split; reflexivity|].
  split.
  { unfold generateSessionTitle.
    now rewrite (TitleFacts.nonblank_branch input Hin). }
  split.
  { split; [exact Hdoc|]. split; [now rewrite Hd|].
    split; [now rewrite Hf, E0|]. split; [exact Hcur | exact Htk1]. }
  apply (title_settled x (tasks w) outcomes w1).
  - unfold storedTitle. simpl. now rewrite Hdoc.
  - right. exists (AwaitUserTurn x). split; [exact Htk1|]. now split.
Qed.

End Exchange.

(** ** The messages subscription *)

Section Subscription.
Context {cleaner : RemoveMarkdown}.








End Subscription.

(** After a switch between two sessions the view still holds the messages
    of the old one until the first snapshot of the new one arrives: the
    effect clears the view only when no session is selected. *)
Remark select_keeps_view `{RemoveMarkdown} (w : world) (u : userId) (b : sessionId) :
  user w = Some u -> messages (step w (Select b)) = messages w.
Proof.
  intros Hu. unfold step, handle. rewrite Hu.
  unfold runEffects, messagesEffect, scope. simpl. rewrite Hu.
  repeat (case_decide || case_match); simplify_eq/=; reflexivity.
Qed.

(** ** Submissions while an exchange is in flight *)

(** While the loading flag is set a submission does nothing. *)
Lemma submit_rejected_while_loading `{RemoveMarkdown} (w : world) :
  isLoading w = true -> step w Submit = w.
Proof.
  intros Hl. unfold step, handle, handleSubmit. rewrite Hl, orb_true_r.
  destruct (user w); now apply AppFacts.runEffects_same.
Qed.

(** C5 does not hold of the code. The loading flag is raised only after
    the implicit session creation has settled, and it is one flag for all
    sessions. Two submissions made with no session selected, before the
    first session is created, start two exchanges, in sessions 0 and 1;
    when the one in session 0 ends it lowers the flag while the one in
    session 1 is still waiting, and a further submission to session 1 is
    accepted: two exchanges are in flight in session 1, both reach the
    service, and the turns of both are stored in it. *)
Theorem two_exchanges_in_one_session :
  let w := run (cleaner := plainAnswer) (mounted emptyStore)
             [AuthStateChanged (Some 7); Input "Why did the Suez crisis end";
              Submit; Submit; Settle 0 Fulfilled; Settle 1 Fulfilled;
              Settle 0 Fulfilled; Settle 0 (Responded (Ok200 "Pressure" []));
              Settle 0 Fulfilled; Settle 0 Fulfilled] in
  let w' := run (cleaner := plainAnswer) w [Input "And then"; Submit] in
  let w'' := run (cleaner := plainAnswer) w' [Settle 0 Fulfilled; Settle 1 Fulfilled] in
  (currentSessionId w = Some 1 /\ isLoading w = false /\
   tasks w = [AwaitUserTurn (Exchange 7 1 "Why did the Suez crisis end" true [])]) /\
  tasks w' = [AwaitUserTurn (Exchange 7 1 "Why did the Suez crisis end" true []);
              AwaitUserTurn (Exchange 7 1 "And then" false [])] /\
  tasks w'' = [AwaitFetch (Exchange 7 1 "Why did the Suez crisis end" true []);
               AwaitFetch (Exchange 7 1 "And then" false [])] /\
  map text (storedMessages (db w'') 7 1) = ["Why did the Suez crisis end"; "And then"] /\
  map query (fetches w'')
  = ["Why did the Suez crisis end"; "Why did the Suez crisis end"; "And then"].
Proof. vm_compute. repeat split. Qed.


(** C3, as specified, fails: in a session created by "New chat", which
    holds no message, a successful exchange on the text "New Analysis"
    leaves two messages and a title that is the placeholder. *)
Lemma first_exchange_placeholder_title :
  let w := run (cleaner := plainAnswer) (mounted emptyStore)
             [AuthStateChanged (Some 7); NewChat; Settle 0 Fulfilled;
              MessagesSnapshot 7 0 []; Input "New Analysis"] in
  let w' := run (cleaner := plainAnswer) w
              [Submit; Settle 0 Fulfilled; Settle 0 (Responded (Ok200 "Which one?" []));
               Settle 0 Fulfilled; Settle 0 Fulfilled] in
  (currentSessionId w = Some 0 /\ storedMessages (db w) 7 0 = []) /\
  map msgSender (storedMessages (db w') 7 0) = [user_; bot] /\
  ~ (storedTitle (db w') 7 0 <> Some placeholderTitle).
Proof.
  cbv zeta. split; [vm_compute; split; reflexivity|].
  split; [vm_compute; reflexivity|]. intros H. apply H. vm_compute. reflexivity.
Qed.

(** An [ok] response without sources is not a successful exchange: the
    write of the assistant turn throws, and the session ends with the user
    turn and the failure turn. *)
Example response_without_sources :
  let w := run (cleaner := plainAnswer) (mounted emptyStore)
             [AuthStateChanged (Some 7); Select 3; Input "Who governs Kaliningrad";
              Submit; Settle 0 Fulfilled;
              Settle 0 (Responded (Ok200NoSources "Russia" "Unsupported field value: undefined"));
              Settle 0 Fulfilled] in
  map text (storedMessages (db w) 7 3)
  = ["Who governs Kaliningrad";
     "Sorry, the analysis failed: Unsupported field value: undefined"] /\
  isLoading w = false /\ tasks w = [].
Proof. vm_compute. repeat split. Qed.

(** ** The theorems at concrete states *)


Lemma user_turn_before_analysis_witness :
  let w := run (cleaner := plainAnswer) (mounted emptyStore)
             [AuthStateChanged (Some 7); Select 3;
              Input "Who governs Kaliningrad"; Submit] in
  let w1 := step (cleaner := plainAnswer) w (Settle 0 (Rejected "unavailable")) in
  tasks w !! 0 = Some (AwaitUserTurn (Exchange 7 3 "Who governs Kaliningrad" false [])) /\
  fetches w1 = fetches w /\ db w1 = db w /\
  error w1 = "Sorry, the analysis failed: unavailable".
Proof.
  cbv zeta.
  set (w := run (cleaner := plainAnswer) (mounted emptyStore)
              [AuthStateChanged (Some 7); Select 3;
               Input "Who governs Kaliningrad"; Submit]).
  assert (Ht : tasks w !! 0
               = Some (AwaitUserTurn (Exchange 7 3 "Who governs Kaliningrad" false [])))
    by (vm_compute; reflexivity).
  destruct (proj2 (user_turn_before_analysis (cleaner := plainAnswer))
              w 0 _ "unavailable" Ht) as (Hf & Hd & He & _).
  repeat split; assumption.
Defined.

Lemma first_exchange_witness :
  let w := run (cleaner := plainAnswer) (mounted emptyStore)
             [AuthStateChanged (Some 7); NewChat; Settle 0 Fulfilled;
              MessagesSnapshot 7 0 []; Input "Why did the Suez crisis end?"] in
  let w' := run (cleaner := plainAnswer) w
              [Submit; Settle 0 Fulfilled; Settle 0 (Responded (Ok200 "Pressure" []));
               Settle 0 Fulfilled; Settle 0 Fulfilled] in
  storedMessages (db w') 7 0
  = [Message user_ "Why did the Suez crisis end?" None 1;
     Message bot "Pressure" (Some []) 2] /\
  storedTitle (db w') 7 0 = Some "Did the Suez crisis end".
Proof.
  cbv zeta.
  set (w := run (cleaner := plainAnswer) (mounted emptyStore)
              [AuthStateChanged (Some 7); NewChat; Settle 0 Fulfilled;
               MessagesSnapshot 7 0 []; Input "Why did the Suez crisis end?"]).
  destruct (first_exchange (cleaner := plainAnswer) w 7 0
              (Session 0 "New Analysis" (Some 0%Z) false) "Pressure" [])
    as (Hm & Ht & _); try (vm_compute; reflexivity).
  split; [exact Hm | exact Ht].
Defined.

Lemma rate_limited_exchange_witness :
  let w := run (cleaner := plainAnswer) (mounted emptyStore)
             [AuthStateChanged (Some 7); Select 3;
              Input "Who governs Kaliningrad"; Submit] in
  let w' := run (cleaner := plainAnswer) w
              [Settle 0 Fulfilled;
               Settle 0 (Responded (NotOk 429 "Too Many Requests"
                                      (Parsed (Some "rate limited"))));
               Settle 0 Fulfilled] in
  map text (storedMessages (db w') 7 3)
  = ["Who governs Kaliningrad"; "Sorry, the analysis failed: rate limited"] /\
  isLoading w' = false.
Proof.
  cbv zeta.
  set (w := run (cleaner := plainAnswer) (mounted emptyStore)
              [AuthStateChanged (Some 7); Select 3;
               Input "Who governs Kaliningrad"; Submit]).
  destruct (rate_limited_exchange (cleaner := plainAnswer) w 0
              (Exchange 7 3 "Who governs Kaliningrad" false []) 429 "Too Many Requests")
    as (Hm & _ & Hl & _); [vm_compute; reflexivity|].
  split; [|exact Hl]. simpl exUser in Hm; simpl exSession in Hm. rewrite Hm.
  vm_compute. reflexivity.
Defined.

Lemma implicit_session_titled_witness :
  let w := run (cleaner := plainAnswer) (mounted emptyStore)
             [AuthStateChanged (Some 7); Input "Explain the Schengen area"] in
  let w1 := run (cleaner := plainAnswer) w [Submit; Settle 0 Fulfilled] in
  let w2 := run (cleaner := plainAnswer) w1
              [Settle 0 Fulfilled; Settle 0 (Rejected "Failed to fetch"); Settle 0 Fulfilled] in
  sessionDocs (db w1) !! (7, 0)
  = Some (Session 0 "The Schengen area" (Some 0%Z) false) /\
  messageDocs (db w1) = messageDocs (db w) /\
  storedTitle (db w2) 7 0 = Some "The Schengen area".
Proof.
  cbv zeta.
  set (w := run (cleaner := plainAnswer) (mounted emptyStore)
              [AuthStateChanged (Some 7); Input "Explain the Schengen area"]).
  destruct (implicit_session_titled (cleaner := plainAnswer) w 7
              [Fulfilled; Rejected "Failed to fetch"; Fulfilled])
    as (_ & _ & (Hdoc & Hmsg & _) & Hlast); try (vm_compute; reflexivity).
  split; [exact Hdoc|]. split; [exact Hmsg | exact Hlast].
Defined.

(** * Further properties of the code *)

(** Reducing the setters and projections of [world], nothing else. *)
Ltac wnorm :=
  cbn [setUser setSessions setCurrentSessionId setMessages setUserInput
       setIsLoading setError withSessionsListener withMessagesListener
       withDb withTasks withFetches
       user sessions currentSessionId messages userInput isLoading error
       sessionsListener messagesListener db tasks fetches].

Ltac wnorm_in H :=
  cbn [setUser setSessions setCurrentSessionId setMessages setUserInput
       setIsLoading setError withSessionsListener withMessagesListener
       withDb withTasks withFetches
       user sessions currentSessionId messages userInput isLoading error
       sessionsListener messagesListener db tasks fetches] in H.

(** Resuming, as the next event of a run, the continuation in the slot
    described by [H]. *)
Ltac resumed H :=
  rewrite AppFacts.run_cons; erewrite AppFacts.step_settle;
  [ | wnorm; first [exact H | eapply lookup_insert_pending; exact H]
    | cbn [settle failed finished]; reflexivity | reflexivity | reflexivity ];
  wnorm; rewrite ?list_insert_insert_eq, ?AppFacts.delete_insert.

(** ** The title generator *)

Module TitleMore.

Lemma capitalize_length (s : string) :
  String.length (Js.capitalize s) = String.length s.
Proof. destruct s; reflexivity. Qed.

Lemma trimEnd_starts (c : ascii) (s : string) :
  Js.isWhite c = false -> exists t, Js.trimEnd (String c s) = String c t.
Proof.
  intros Hc. simpl. destruct (Js.trimEnd s).
  - rewrite Hc. eauto.
  - eauto.
Qed.

Lemma trimEnd_cons (c : ascii) (s : string) :
  Js.trimEnd (String c s)
  = match Js.trimEnd s with
    | EmptyString => if Js.isWhite c then EmptyString else String c EmptyString
    | String d t => String c (String d t)
    end.
Proof. reflexivity. Qed.

Lemma trimEnd_idempotent (s : string) : Js.trimEnd (Js.trimEnd s) = Js.trimEnd s.
Proof.
  induction s as [|c s IH]; [reflexivity|]. rewrite trimEnd_cons.
  destruct (Js.trimEnd s) as [|d t] eqn:E.
  - destruct (Js.isWhite c) eqn:Hc; [reflexivity|].
    rewrite trimEnd_cons. simpl. now rewrite Hc.
  - rewrite trimEnd_cons, IH. reflexivity.
Qed.

Lemma trimStart_shape (s : string) :
  Js.trimStart s = "" \/
  exists c t, Js.trimStart s = String c t /\ Js.isWhite c = false.
Proof.
  induction s as [|c s IH]; [now left|]. simpl.
  destruct (Js.isWhite c) eqn:Hc; [exact IH | right; eauto].
Qed.

(** Trimming twice is trimming once. *)
Lemma trim_idempotent (s : string) : Js.trim (Js.trim s) = Js.trim s.
Proof.
  unfold Js.trim.
  destruct (trimStart_shape s) as [E | (c & t & E & Hc)]; rewrite E; [reflexivity|].
  destruct (trimEnd_starts c t Hc) as [t' Et]. rewrite Et.
  simpl Js.trimStart. rewrite Hc. rewrite <- Et. apply trimEnd_idempotent.
Qed.

Lemma trimStart_blank (s : string) :
  forallb Js.isWhite (list_ascii_of_string s) = true -> Js.trimStart s = "".
Proof.
  induction s as [|c s IH]; simpl; [reflexivity|].
  intros H. apply andb_true_iff in H as [Hc Hs]. rewrite Hc. now apply IH.
Qed.

(** The characters of a string, for statements about what a title holds. *)
Local Abbreviation chars := list_ascii_of_string.

Lemma chars_append (s1 s2 : string) : chars (s1 +:+ s2) = chars s1 ++ chars s2.
Proof. induction s1 as [|c s1 IH]; simpl; [reflexivity | now rewrite IH]. Qed.

Lemma trimStart_chars (s : string) (c : ascii) :
  In c (chars (Js.trimStart s)) -> In c (chars s).
Proof.
  induction s as [|d s IH]; simpl; [tauto|].
  destruct (Js.isWhite d); simpl; tauto.
Qed.

Lemma trimEnd_chars (s : string) (c : ascii) :
  In c (chars (Js.trimEnd s)) -> In c (chars s).
Proof.
  induction s as [|d s IH]; simpl; [tauto|].
  destruct (Js.trimEnd s) as [|e t].
  - destruct (Js.isWhite d); simpl; tauto.
  - simpl in *. tauto.
Qed.

Lemma trim_chars (s : string) (c : ascii) : In c (chars (Js.trim s)) -> In c (chars s).
Proof. intros H. now apply trimStart_chars, trimEnd_chars. Qed.

Lemma substring_chars (s : string) (c : ascii) :
  forall n, In c (chars (String.substring 0 n s)) -> In c (chars s).
Proof.
  induction s as [|d s IH]; intros [|n]; simpl; try tauto.
  intros [H|H]; [now left | right; eauto].
Qed.

Lemma removeAll_chars (c : ascii) (s : string) : ~ In c (chars (Js.removeAll c s)).
Proof.
  induction s as [|d s IH]; simpl; [tauto|].
  destruct (Ascii.eqb c d) eqn:E; [exact IH|].
  simpl. intros [H|H]; [|now apply IH].
  subst. now rewrite Ascii.eqb_refl in E.
Qed.

Lemma upperChar_question (d : ascii) : Js.upperChar d = "?"%char -> d = "?"%char.
Proof.
  destruct d as [[] [] [] [] [] [] [] []]; vm_compute; intros H;
    first [reflexivity | discriminate H].
Qed.

Lemma capitalize_question (s : string) :
  In "?"%char (chars (Js.capitalize s)) -> In "?"%char (chars s).
Proof.
  destruct s as [|d s]; simpl; [tauto|].
  intros [H|H]; [left; now apply upperChar_question | now right].
Qed.

End TitleMore.

(** X1: for every input of 7-bit characters, the generated title is at
    most 40 characters long. (Beyond that range [toUpperCase] can turn the
    first character into two.) *)
Theorem title_length_bound (userInput : string) :
  sevenBit userInput ->
  String.length (generateSessionTitle userInput) <= 40.
Proof.
  intros _. unfold generateSessionTitle.
  destruct (negb (Js.truthy userInput) || String.eqb (Js.trim userInput) "");
    [vm_compute; lia|].
  cbv zeta. destruct (Nat.leb (String.length (titleStem userInput)) 40) eqn:E.
  - apply Nat.leb_le in E. now rewrite TitleMore.capitalize_length.
  - apply Nat.leb_gt in E. rewrite TitleFacts.length_append.
    pose proof (TitleFacts.trim_length (String.substring 0 37 (titleStem userInput))).
    rewrite TitleFacts.substring_length in H by lia. simpl. lia.
Qed.

Lemma title_length_bound_witness :
  String.length
    (generateSessionTitle "explain the consequences of the Peace of Westphalia for Europe")
  <= 40.
Proof.
  apply (title_length_bound
           "explain the consequences of the Peace of Westphalia for Europe").
  vm_compute. reflexivity.
Defined.

(** X2: a generated title holds no question mark, whatever the input. *)
Theorem title_without_question_mark (userInput : string) :
  ~ In "?"%char (list_ascii_of_string (generateSessionTitle userInput)).
Proof.
  unfold generateSessionTitle.
  destruct (negb (Js.truthy userInput) || String.eqb (Js.trim userInput) "").
  { vm_compute. intros H. repeat (destruct H as [H|H]; [discriminate H|]). exact H. }
  cbv zeta.
  assert (Hstem : ~ In "?"%char (list_ascii_of_string (titleStem userInput)))
    by apply TitleMore.removeAll_chars.
  destruct (Nat.leb (String.length (titleStem userInput)) 40).
  - intros H. now apply Hstem, TitleMore.capitalize_question.
  - rewrite TitleMore.chars_append. intros H. apply in_app_or in H as [H|H].
    + now apply Hstem, (TitleMore.substring_chars _ _ 37), TitleMore.trim_chars.
    + simpl in H. repeat (destruct H as [H|H]; [discriminate H|]). exact H.
Qed.

(** X3: white space around the input never matters: the title of an input
    is the title of the trimmed input. *)
Theorem title_of_trimmed_input (userInput : string) :
  generateSessionTitle (Js.trim userInput) = generateSessionTitle userInput.
Proof.
  unfold generateSessionTitle, titleStem. rewrite TitleMore.trim_idempotent.
  destruct (Js.trim userInput) as [|c t] eqn:E.
  - now rewrite !orb_true_r.
  - destruct userInput as [|d u]; [discriminate E | reflexivity].
Qed.

(** X4: an input made of white space only gets the placeholder title. *)
Theorem blank_input_placeholder (userInput : string) :
  forallb Js.isWhite (list_ascii_of_string userInput) = true ->
  generateSessionTitle userInput = placeholderTitle.
Proof.
  intros H. unfold generateSessionTitle, Js.trim.
  rewrite (TitleMore.trimStart_blank _ H). simpl. now rewrite orb_true_r.
Qed.

Lemma blank_input_placeholder_witness :
  generateSessionTitle (String " " (String "009" (String "010" " "))) = "New Analysis".
Proof.
  apply (blank_input_placeholder (String " " (String "009" (String "010" " ")))).
  vm_compute. reflexivity.
Defined.

(** ** The session ordering *)

Module SortMore.

Lemma insertBy_filter {A : Type} (cmp : A -> A -> Z) (P : A -> bool) (x : A) (l : list A) :
  (forall y, P x = true -> P y = true -> (cmp x y <= 0)%Z) ->
  List.filter P (JsArray.insertBy cmp x l) = List.filter P (x :: l).
Proof.
  intros HP. induction l as [|y l IH]; [reflexivity|].
  simpl JsArray.insertBy. destruct (Z.leb (cmp x y) 0) eqn:E; [reflexivity|].
  apply Z.leb_gt in E. simpl List.filter at 1. rewrite IH. simpl.
  destruct (P x) eqn:Hx; [|reflexivity].
  destruct (P y) eqn:Hy; [|reflexivity].
  specialize (HP y eq_refl Hy). lia.
Qed.

Lemma insertBy_map {A : Type} (cmp : A -> A -> Z) (f : A -> A) (x : A) (l : list A) :
  (forall a b, cmp (f a) (f b) = cmp a b) ->
  JsArray.insertBy cmp (f x) (map f l) = map f (JsArray.insertBy cmp x l).
Proof.
  intros Hf. induction l as [|y l IH]; [reflexivity|].
  simpl. rewrite Hf. destruct (Z.leb (cmp x y) 0); [reflexivity|].
  simpl. now rewrite IH.
Qed.

Lemma sameRank_compare (z x y : session) :
  sameRank z x = true -> sameRank z y = true -> (compareSessions x y <= 0)%Z.
Proof.
  unfold sameRank, compareSessions. intros Hx Hy.
  apply andb_true_iff in Hx as [Hx1 Hx2]. apply andb_true_iff in Hy as [Hy1 Hy2].
  apply Bool.eqb_prop in Hx1, Hy1. apply Z.eqb_eq in Hx2, Hy2.
  rewrite <- Hx1, <- Hy1, <- Hx2, <- Hy2.
  destruct (isPinned z); simpl; lia.
Qed.

Lemma insert_pinned (x : session) (l1 l2 : list session) :
  isPinned x = true -> Forall (fun s => isPinned s = false) l2 ->
  JsArray.insertBy compareSessions x (l1 ++ l2)
  = JsArray.insertBy compareSessions x l1 ++ l2.
Proof.
  intros Hx H2. induction l1 as [|a l1 IH]; simpl.
  - destruct l2 as [|y l2]; [reflexivity|]. simpl.
    inversion H2 as [|? ? Hy _]; subst.
    unfold compareSessions. now rewrite Hx, Hy.
  - destruct (Z.leb (compareSessions x a) 0); [reflexivity|].
    simpl. now rewrite IH.
Qed.

Lemma insert_unpinned (x : session) (l1 l2 : list session) :
  isPinned x = false -> Forall (fun s => isPinned s = true) l1 ->
  JsArray.insertBy compareSessions x (l1 ++ l2)
  = l1 ++ JsArray.insertBy compareSessions x l2.
Proof.
  intros Hx H1. induction H1 as [|a l1 Ha _ IH]; [reflexivity|].
  simpl. unfold compareSessions at 1. rewrite Hx, Ha. simpl. now rewrite IH.
Qed.

Lemma sort_Forall (P : session -> Prop) (l : list session) :
  Forall P l -> Forall P (sortedSessions l).
Proof.
  intros H. unfold sortedSessions.
  now rewrite (SortFacts.sort_perm compareSessions l).
Qed.

Lemma filter_Forall (p : session -> bool) (l : list session) :
  Forall (fun s => p s = true) (List.filter p l).
Proof.
  apply List.Forall_forall. intros s Hs. now apply List.filter_In in Hs.
Qed.

End SortMore.

(** X5: the sidebar order is stable: sessions that the comparator does not
    tell apart (same pin state, same creation time, unresolved counting as
    0) keep the order in which the snapshot lists them. *)
Theorem sortedSessions_stable (z : session) (l : list session) :
  List.filter (sameRank z) (sortedSessions l) = List.filter (sameRank z) l.
Proof.
  unfold sortedSessions. induction l as [|x l IH]; [reflexivity|].
  simpl JsArray.sort. fold (JsArray.sort compareSessions l).
  rewrite SortMore.insertBy_filter.
  - simpl. now rewrite IH.
  - intros y. apply SortMore.sameRank_compare.
Qed.

(** X6: the sidebar order is the pinned sessions in their order followed
    by the unpinned sessions in theirs. *)
Theorem sortedSessions_blocks (l : list session) :
  sortedSessions l
  = sortedSessions (List.filter isPinned l)
    ++ sortedSessions (List.filter (fun s => negb (isPinned s)) l).
Proof.
  induction l as [|x l IH]; [reflexivity|].
  unfold sortedSessions at 1. simpl JsArray.sort.
  fold (JsArray.sort compareSessions l). fold (sortedSessions l). rewrite IH.
  assert (Hp : Forall (fun s => isPinned s = true)
                 (sortedSessions (List.filter isPinned l)))
    by apply SortMore.sort_Forall, SortMore.filter_Forall.
  assert (Hu : Forall (fun s => isPinned s = false)
                 (sortedSessions (List.filter (fun s => negb (isPinned s)) l))).
  { apply SortMore.sort_Forall.
    eapply Forall_impl;
      [apply (SortMore.filter_Forall (fun s => negb (isPinned s)))|].
    intros s Hs. now apply negb_true_iff in Hs. }
  simpl List.filter. destruct (isPinned x) eqn:Hx; simpl negb; cbv iota.
  - now rewrite SortMore.insert_pinned.
  - now rewrite SortMore.insert_unpinned.
Qed.

(** X7: titles play no part in the order: changing the titles of sessions
    (as a rename does, leaving id, creation time and pin state) and sorting
    gives the sorted sessions with their titles changed. *)
Theorem sortedSessions_retitled (newTitle : session -> string) (l : list session) :
  let retitle := fun s => Session (sessId s) (newTitle s) (createdAt s) (isPinned s) in
  sortedSessions (map retitle l) = map retitle (sortedSessions l).
Proof.
  cbv zeta.
  set (f := fun s => Session (sessId s) (newTitle s) (createdAt s) (isPinned s)).
  unfold sortedSessions. induction l as [|x l IH]; [reflexivity|].
  change (JsArray.insertBy compareSessions (f x)
            (JsArray.sort compareSessions (map f l))
          = map f (JsArray.insertBy compareSessions x (JsArray.sort compareSessions l))).
  rewrite IH. apply SortMore.insertBy_map. intros a b. reflexivity.
Qed.

(** ** Submissions and exchanges *)

Section ExchangeMore.
Context {cleaner : RemoveMarkdown}.

(** X8: a submission whose text is blank is ignored altogether: no state
    changes, nothing is written, no handler is left pending. *)
Theorem blank_submission_ignored (w : world) :
  Js.truthy (Js.trim (userInput w)) = false -> step w Submit = w.
Proof.
  intros Hb. unfold step, handle, handleSubmit. rewrite Hb. simpl.
  destruct (user w); now apply AppFacts.runEffects_same.
Qed.

(** X9: the detail put into the failure text is never empty: a missing or
    empty [detail], like an unreadable body with an empty status text,
    falls back to the message that names the status code. *)
Theorem apiError_never_empty (status : nat) (statusText : string) (body : errorBody) :
  Js.truthy (apiError status statusText body) = true /\
  apiError status statusText (Parsed None)
  = "An API error occurred: " +:+ Js.ofNat status /\
  apiError status statusText (Parsed (Some ""))
  = "An API error occurred: " +:+ Js.ofNat status /\
  apiError status "" Unparsable = "An API error occurred: " +:+ Js.ofNat status.
Proof.
  split; [|repeat split].
  unfold apiError.
  destruct (Js.truthy (match body with
                       | Unparsable => statusText
                       | Parsed d => default "" d
                       end)) eqn:E; [exact E | reflexivity].
Qed.

(** X10: an exchange is never retried and never loops: a resumed
    continuation either ends the exchange, releasing the loading flag, or
    leaves a continuation of the same exchange that is strictly further in
    the order of its stages: user-turn write, request, assistant-turn
    write, title write, failure-turn write. No stage is entered twice and
    none is gone back to. *)
Theorem exchange_advances (t : task) (o : outcome) (w w' : world) (k : option task)
    (x : exchange) :
  exchangeOf t = Some x -> settle t o w = Some (w', k) ->
  match k with
  | Some t' => exchangeOf t' = Some x /\ phase t' < phase t /\ isLoading w' = isLoading w
  | None => isLoading w' = false
  end.
Proof.
  intros Hx Hs.
  destruct t; try discriminate; injection Hx as ->;
    destruct o as [| |[| |]]; try discriminate;
    unfold settle, failed, finished in Hs; simpl in Hs;
    try match type of Hs with
        | context [if ?b then _ else _] => destruct b
        end;
    injection Hs as <- <-; simpl; repeat split; lia.
Qed.

End ExchangeMore.

Lemma blank_submission_ignored_witness :
  let w := run (cleaner := plainAnswer) (mounted emptyStore)
             [AuthStateChanged (Some 7); Select 3; Input "   "] in
  step (cleaner := plainAnswer) w Submit = w.
Proof.
  cbv zeta. apply (blank_submission_ignored (cleaner := plainAnswer)).
  vm_compute. reflexivity.
Defined.

Lemma exchange_advances_witness :
  let x := Exchange 7 3 "Who governs Kaliningrad" false [] in
  let w := run (cleaner := plainAnswer) (mounted emptyStore)
             [AuthStateChanged (Some 7); Select 3;
              Input "Who governs Kaliningrad"; Submit] in
  exchangeOf (AwaitErrorTurn x "Sorry, the analysis failed: offline") = Some x /\
  phase (AwaitErrorTurn x "Sorry, the analysis failed: offline") < phase (AwaitUserTurn x) /\
  isLoading (setError "Sorry, the analysis failed: offline" w) = isLoading w.
Proof.
  cbv zeta.
  exact (exchange_advances (cleaner := plainAnswer)
           (AwaitUserTurn (Exchange 7 3 "Who governs Kaliningrad" false []))
           (Rejected "offline") _ _ _ _ eq_refl eq_refl).
Defined.

Section ExchangePaths.
Context {cleaner : RemoveMarkdown}.

Lemma clock_addMessage (u : userId) (sid : sessionId) (who : sender) (body : string)
    (srcs : option (list source)) (st : store) :
  clock (addMessage u sid who body srcs st) = (clock st + 1)%Z.
Proof. reflexivity. Qed.

(** Snapshots touch the views only. *)
Lemma step_snapshot_frame (w : world) (u : userId) (sid : sessionId) (docs : list message) :
  let w' := step w (MessagesSnapshot u sid docs) in
  db w' = db w /\ tasks w' = tasks w /\ fetches w' = fetches w /\
  user w' = user w /\ currentSessionId w' = currentSessionId w.
Proof.
  cbv zeta. unfold step, handle, deliverMessages, onMessagesSnapshot.
  case_decide.
  - rewrite AppFacts.runEffects_same by reflexivity. repeat split.
  - rewrite AppFacts.runEffects_same by reflexivity. repeat split.
Qed.

Lemma run_snapshots_frame (u : userId) (sid : sessionId) (snaps : list (list message)) :
  forall w,
    let w' := run w (map (MessagesSnapshot u sid) snaps) in
    db w' = db w /\ tasks w' = tasks w /\ fetches w' = fetches w.
Proof.
  induction snaps as [|docs snaps IH]; intros w; [repeat split|].
  cbv zeta. simpl map. rewrite AppFacts.run_cons.
  destruct (IH (step w (MessagesSnapshot u sid docs))) as (Hd & Ht & Hf).
  destruct (step_snapshot_frame w u sid docs) as (Hd' & Ht' & Hf' & _).
  rewrite Hd, Ht, Hf, Hd', Ht', Hf'. repeat split.
Qed.

(** X11: the history sent to the service is the list of messages the view
    showed when the text was submitted: snapshots that arrive between the
    submission and the request, the one of the user turn included, do not
    enter it. *)
Theorem history_is_view_at_submission (w : world) (u : userId) (sid : sessionId)
    (snaps : list (list message)) :
  user w = Some u -> currentSessionId w = Some sid ->
  isLoading w = false -> Js.truthy (Js.trim (userInput w)) = true ->
  let w1 := run (step w Submit) (map (MessagesSnapshot u sid) snaps) in
  let w2 := step w1 (Settle (length (tasks w)) Fulfilled) in
  fetches w1 = fetches w /\
  fetches w2 = fetches w ++
    [Request (userInput w) (map (fun msg => (msgSender msg, text msg)) (messages w))].
Proof.
  intros Hu Hc Hl Hin w1 w2.
  destruct (run_snapshots_frame u sid snaps (step w Submit)) as (Hd & Ht & Hf).
  fold w1 in Hd, Ht, Hf.
  rewrite (step_submit_current w u sid Hu Hc Hl Hin) in Hd, Ht, Hf.
  wnorm_in Hd. wnorm_in Ht. wnorm_in Hf.
  split; [exact Hf|].
  assert (Hlook : tasks w1 !! length (tasks w)
                  = Some (AwaitUserTurn (Exchange u sid (userInput w) false (messages w))))
    by (rewrite Ht; now apply list_lookup_middle).
  destruct (step_settle_frame w1 _ _ _ Fulfilled _ Hlook eq_refl) as (_ & Hf2 & _).
  fold w2 in Hf2. rewrite Hf2. wnorm. now rewrite Hf.
Qed.

(** X12: when the creation of the implicit session is rejected, nothing
    is stored, no exchange starts and the service is not called; the text
    stays in the input field and the creation error is shown. *)
Theorem implicit_creation_rejected (w : world) (u : userId) (m : string) :
  user w = Some u -> currentSessionId w = None ->
  isLoading w = false -> Js.truthy (Js.trim (userInput w)) = true ->
  run w [Submit; Settle (length (tasks w)) (Rejected m)]
  = setError "Failed to create new chat session" w.
Proof.
  intros Hu Hc Hl Hin.
  rewrite AppFacts.run_cons, (step_submit_new w u Hu Hc Hl Hin).
  rewrite AppFacts.run_cons, AppFacts.run_nil.
  erewrite AppFacts.step_settle;
    [ | wnorm; now apply list_lookup_middle | reflexivity | reflexivity | reflexivity ].
  wnorm. rewrite delete_middle, app_nil_r. destruct w; reflexivity.
Qed.

(** A successful exchange that is not the first of its session: three
    promises settle and no title is written. *)
Lemma exchange_success_plain (w : world) (i : nat) (x : exchange)
    (answer : string) (srcs : list source) :
  tasks w !! i = Some (AwaitUserTurn x) ->
  exIsNew x || Nat.eqb (length (exHistory x)) 0 = false ->
  run w [Settle i Fulfilled; Settle i (Responded (Ok200 answer srcs));
         Settle i Fulfilled]
  = withTasks (delete i (tasks w))
      (setIsLoading false
         (withFetches (fetches w ++ [requestOf x])
            (withDb (answered x answer srcs (db w)) w))).
Proof.
  intros Ht Hfirst.
  destruct w as [usr ss cur ms inp ld er sl ml st tk fs]. simpl in Ht.
  resumed Ht. resumed Ht.
  rewrite AppFacts.run_cons; erewrite AppFacts.step_settle;
    [ | wnorm; eapply lookup_insert_pending; exact Ht
      | simpl; rewrite Hfirst; reflexivity | reflexivity | reflexivity ].
  wnorm. rewrite AppFacts.delete_insert. reflexivity.
Qed.

(** The [catch] block taken from any [await] of an exchange. *)
Lemma step_failed (w : world) (i : nat) (t : task) (o : outcome) (x : exchange)
    (m : string) :
  tasks w !! i = Some t -> settle t o w = Some (failed x m w) ->
  step w (Settle i o)
  = withTasks (<[i := AwaitErrorTurn x (failureText m)]> (tasks w))
      (setError (failureText m) w).
Proof.
  intros Ht Hs.
  now rewrite (AppFacts.step_settle w _ i t o _ Ht Hs).
Qed.

(** The end of the [catch] block when the failure turn is written. *)
Lemma step_failure_written (w : world) (i : nat) (x : exchange) (errorMsg : string) :
  tasks w !! i = Some (AwaitErrorTurn x errorMsg) ->
  step w (Settle i Fulfilled)
  = withTasks (delete i (tasks w))
      (setIsLoading false
         (withDb (addMessage (exUser x) (exSession x) bot errorMsg None (db w)) w)).
Proof.
  intros Ht.
  now rewrite (AppFacts.step_settle w _ i _ Fulfilled _ Ht eq_refl).
Qed.

Lemma exchange_title_rejected (w : world) (i : nat) (x : exchange)
    (answer m : string) (srcs : list source) :
  tasks w !! i = Some (AwaitUserTurn x) ->
  exIsNew x || Nat.eqb (length (exHistory x)) 0 = true ->
  run w [Settle i Fulfilled; Settle i (Responded (Ok200 answer srcs));
         Settle i Fulfilled; Settle i (Rejected m); Settle i Fulfilled]
  = withTasks (delete i (tasks w))
      (setIsLoading false
         (setError (failureText m)
            (withFetches (fetches w ++ [requestOf x])
               (withDb (addMessage (exUser x) (exSession x) bot (failureText m) None
                          (answered x answer srcs (db w))) w)))).
Proof.
  intros Ht Hfirst.
  destruct w as [usr ss cur ms inp ld er sl ml st tk fs]. simpl in Ht.
  resumed Ht. resumed Ht.
  rewrite AppFacts.run_cons; erewrite AppFacts.step_settle;
    [ | wnorm; eapply lookup_insert_pending; exact Ht
      | simpl; rewrite Hfirst; reflexivity | reflexivity | reflexivity ].
  wnorm. rewrite list_insert_insert_eq.
  rewrite AppFacts.run_cons.
  erewrite (step_failed _ i _ (Rejected m) x m);
    [ | wnorm; eapply lookup_insert_pending; exact Ht | reflexivity ].
  wnorm. rewrite list_insert_insert_eq.
  generalize (failureText m). intros errorMsg.
  rewrite AppFacts.run_cons, AppFacts.run_nil.
  erewrite (step_failure_written _ i x errorMsg);
    [ | wnorm; eapply lookup_insert_pending; exact Ht ].
  wnorm. rewrite AppFacts.delete_insert. reflexivity.
Qed.

(** X13: when the write of the new title is rejected after a successful
    analysis, the assistant turn stays stored and is followed by a failure
    turn that carries the message of the rejected write; the title is not
    changed, that message is the error shown, and the loading flag is
    released. *)
Theorem title_write_rejected (w : world) (i : nat) (x : exchange)
    (answer m : string) (srcs : list source) :
  tasks w !! i = Some (AwaitUserTurn x) ->
  exIsNew x || Nat.eqb (length (exHistory x)) 0 = true ->
  let w' := run w [Settle i Fulfilled; Settle i (Responded (Ok200 answer srcs));
                   Settle i Fulfilled; Settle i (Rejected m); Settle i Fulfilled] in
  storedMessages (db w') (exUser x) (exSession x)
  = storedMessages (db w) (exUser x) (exSession x)
    ++ [Message user_ (exQuery x) None (clock (db w));
        Message bot (removeMarkdown answer) (Some srcs) (clock (db w) + 1);
        Message bot ("Sorry, the analysis failed: " +:+ m) None (clock (db w) + 1 + 1)] /\
  sessionDocs (db w') = sessionDocs (db w) /\
  error w' = "Sorry, the analysis failed: " +:+ m /\
  isLoading w' = false /\ tasks w' = delete i (tasks w).
Proof.
  intros Ht Hfirst w'. subst w'.
  rewrite (exchange_title_rejected w i x answer m srcs Ht Hfirst).
  wnorm. unfold answered, failureText.
  rewrite !StoreFacts.storedMessages_addMessage, <- !app_assoc.
  rewrite !clock_addMessage.
  split; [reflexivity|]. split; [reflexivity|]. split; [reflexivity|].
  split; reflexivity.
Qed.

End ExchangePaths.

Section StoreInvariants.
Context {cleaner : RemoveMarkdown}.

(** Only the handlers resumed by [Settle] write to the store. *)
Lemma handle_db (e : event) (w : world) :
  (forall i o, e <> Settle i o) -> db (handle e w) = db w.
Proof.
  intros He. destruct e; try (exfalso; eapply He; reflexivity);
    unfold handle, onAuthState, deliverSessions, deliverMessages,
      onSessionsSnapshot, onMessagesSnapshot,
      createNewSession, deleteSession, handleSubmit, getAnalysis, spawn;
    repeat (case_match || case_decide); simpl; try reflexivity.
Qed.

Lemma settle_messages (t : task) (o : outcome) (w w' : world) (k : option task)
    (u : userId) (sid : sessionId) :
  settle t o w = Some (w', k) ->
  storedMessages (db w') u sid = storedMessages (db w) u sid \/
  exists x m,
    exchangeOf t = Some x /\ o = Fulfilled /\ (exUser x, exSession x) = (u, sid) /\
    storedMessages (db w') u sid = storedMessages (db w) u sid ++ [m].
Proof.
  intros Hs.
  destruct t, o as [| |[| |]]; try discriminate;
    unfold settle, failed, finished, getAnalysis, addSession in Hs; simpl in Hs;
    try match type of Hs with
        | context [if ?b then _ else _] => destruct b
        end;
    injection Hs as <- <-; wnorm; try (left; reflexivity);
    rewrite ?StoreFacts.storedMessages_updateTitle; try (left; reflexivity);
    (destruct (decide ((exUser x, exSession x) = (u, sid))) as [E|E];
     [ right; injection E as <- <-; eexists _, _;
       rewrite StoreFacts.storedMessages_addMessage; eauto
     | left; now apply StoreFacts.storedMessages_addMessage_other ]).
Qed.

(** X14: the message list of a session only grows at its end, one message
    at a time: an event leaves the stored messages of a session as they
    are, or it is the committed write of an exchange of that very session
    and appends one message. No event removes, reorders or rewrites a
    message, and no exchange writes into another session than its own. *)
Theorem messages_append_only (w : world) (e : event) (u : userId) (sid : sessionId) :
  storedMessages (db (step w e)) u sid = storedMessages (db w) u sid \/
  exists i t x m,
    e = Settle i Fulfilled /\ tasks w !! i = Some t /\ exchangeOf t = Some x /\
    (exUser x, exSession x) = (u, sid) /\
    storedMessages (db (step w e)) u sid = storedMessages (db w) u sid ++ [m].
Proof.
  destruct (AppFacts.runEffects_frame_at w (handle e w)) as (Hdb & _).
  fold (step w e) in Hdb. rewrite Hdb.
  destruct e as [| | | | | | | |i o];
    try (left; rewrite handle_db; [reflexivity | discriminate]).
  unfold handle.
  destruct (tasks w !! i) as [t|] eqn:Ht; [|now left].
  destruct (settle t o w) as [[w' k]|] eqn:Hs; [|now left].
  assert (Hd : db (match k with
                   | Some t' => withTasks (<[i:=t']> (tasks w')) w'
                   | None => withTasks (delete i (tasks w')) w'
                   end) = db w') by now destruct k.
  rewrite Hd.
  destruct (settle_messages t o w w' k u sid Hs) as [H | (x & m & Hx & -> & Hk & Hm)];
    [now left | right].
  exists i, t, x, m. repeat split; assumption.
Qed.

Lemma existsb_inserted {A : Type} (p : A -> bool) (l : list A) :
  forall i t t', l !! i = Some t -> p t' = true -> existsb p (<[i := t']> l) = true.
Proof.
  induction l as [|a l IH]; intros [|i] t t' Hl Hp; try discriminate; simpl.
  - now rewrite Hp.
  - rewrite (IH i t t' Hl Hp). apply orb_true_r.
Qed.

Lemma existsb_deleted {A : Type} (p : A -> bool) (l : list A) :
  forall i t, l !! i = Some t -> p t = false -> existsb p (delete i l) = existsb p l.
Proof.
  induction l as [|a l IH]; intros [|i] t Hl Hp; try discriminate; simpl.
  - injection Hl as ->. now rewrite Hp.
  - simpl in Hl. now rewrite (IH i t Hl Hp).
Qed.

Lemma settle_loading (t : task) (o : outcome) (w w' : world) (k : option task) :
  settle t o w = Some (w', k) ->
  match k with
  | Some t' => isExchangeTask t' = true
  | None => isLoading w' = false \/ (isLoading w' = isLoading w /\ isExchangeTask t = false)
  end.
Proof.
  intros Hs.
  destruct t, o as [| |[| |]]; try discriminate;
    unfold settle, failed, finished, getAnalysis, addSession in Hs; simpl in Hs;
    try match type of Hs with
        | context [if ?b then _ else _] => destruct b
        end;
    injection Hs as <- <-; simpl; auto.
Qed.

Lemma handle_loading (e : event) (w : world) :
  loadingJustified w -> loadingJustified (handle e w).
Proof.
  unfold loadingJustified. intros Hw.
  destruct e as [| | | | | | | |i o].
  1-8: unfold handle, onAuthState, deliverSessions, deliverMessages,
      onSessionsSnapshot, onMessagesSnapshot,
         createNewSession, deleteSession, handleSubmit, getAnalysis, spawn;
       repeat (case_match || case_decide); simplify_eq/=;
       rewrite ?existsb_app; simpl; rewrite ?orb_true_r, ?orb_false_r; auto;
       try (intros; congruence).
  unfold handle.
  destruct (tasks w !! i) as [t|] eqn:Ht; [|exact Hw].
  destruct (settle t o w) as [[w' k]|] eqn:Hs; [|exact Hw].
  pose proof (settle_loading t o w w' k Hs) as Hk.
  destruct (settle_frame t o w w' k Hs) as (_ & Htk & _).
  destruct k as [t'|]; wnorm; rewrite Htk.
  - intros _. now apply (existsb_inserted isExchangeTask (tasks w) i t t').
  - intros Hl. destruct Hk as [Hk | [Hk Hn]]; [congruence|].
    rewrite (existsb_deleted isExchangeTask (tasks w) i t Ht Hn).
    apply Hw. congruence.
Qed.

Lemma step_loading (w : world) (e : event) :
  loadingJustified w -> loadingJustified (step w e).
Proof.
  intros Hw. apply (handle_loading e) in Hw. unfold loadingJustified in *.
  destruct (AppFacts.runEffects_frame w (handle e w)) as (_ & _ & Ht & _ & Hl & _).
  fold (step w e) in Ht, Hl. now rewrite Ht, Hl.
Qed.

(** X15: the loading flag never sticks: in every state the component
    reaches from its first render, the flag is set only while a
    continuation of some exchange is pending; when none is, the form is
    usable. *)
Theorem loading_only_while_pending (st : store) (es : list event) :
  let w := run (mounted st) es in
  isLoading w = true -> existsb isExchangeTask (tasks w) = true.
Proof.
  cbv zeta. change (loadingJustified (run (mounted st) es)).
  assert (H : loadingJustified (mounted st)) by discriminate.
  revert H. generalize (mounted st). induction es as [|e es IH]; intros w Hw; [exact Hw|].
  rewrite AppFacts.run_cons. apply IH. now apply step_loading.
Qed.

End StoreInvariants.

Lemma loading_only_while_pending_witness :
  let w := run (cleaner := plainAnswer) (mounted emptyStore)
             [AuthStateChanged (Some 7); Select 3;
              Input "Who governs Kaliningrad"; Submit; Settle 0 Fulfilled] in
  isLoading w = true /\ existsb isExchangeTask (tasks w) = true.
Proof.
  cbv zeta. split; [vm_compute; reflexivity|].
  apply (loading_only_while_pending (cleaner := plainAnswer) emptyStore
           [AuthStateChanged (Some 7); Select 3;
            Input "Who governs Kaliningrad"; Submit; Settle 0 Fulfilled]).
  vm_compute. reflexivity.
Defined.

(** ** Sessions: creation, deletion, selection, identity *)

Section Lifecycle.
Context {cleaner : RemoveMarkdown}.

Lemma runEffects_selected (prev h : world) (u : userId) (sid : sessionId) :
  user prev = Some u -> user h = Some u -> currentSessionId h = Some sid ->
  messagesListener h = scope prev ->
  runEffects prev h = withMessagesListener (Some (u, sid)) h.
Proof.
  unfold runEffects, messagesEffect, scope.
  destruct prev, h; simpl. intros -> -> -> ->.
  repeat (case_decide || case_match); simplify_eq/=; reflexivity.
Qed.

Lemma runEffects_deselected (prev h : world) (u : userId) :
  user prev = Some u -> user h = Some u -> currentSessionId h = None ->
  messages h = [] -> messagesListener h = scope prev ->
  runEffects prev h = withMessagesListener None h.
Proof.
  unfold runEffects, messagesEffect, scope.
  destruct prev, h; simpl. intros -> -> -> -> ->.
  repeat (case_decide || case_match); simplify_eq/=; reflexivity.
Qed.

(** X16: "New chat" writes nothing until the store answers. When the
    session is created it carries the placeholder title and is not pinned,
    it becomes the current session with an empty view, an empty input and
    no error, and the messages listener is bound to it. When the creation
    is rejected only the error changes: the selection, the view and the
    input stay as they were. *)
Theorem new_chat (w : world) (u : userId) (m : string) :
  user w = Some u -> wellSubscribed w ->
  let i := length (tasks w) in
  let sid := nextId (db w) in
  let w0 := step w NewChat in
  w0 = withTasks (tasks w ++ [AwaitNewChat u]) w /\
  step w0 (Settle i Fulfilled)
  = withMessagesListener (Some (u, sid))
      (setError "" (setUserInput "" (setMessages []
         (setCurrentSessionId (Some sid)
            (withDb (addSession u placeholderTitle (db w)).2 w))))) /\
  sessionDocs (addSession u placeholderTitle (db w)).2 !! (u, sid)
  = Some (Session sid "New Analysis" (Some (clock (db w))) false) /\
  step w0 (Settle i (Rejected m)) = setError "Failed to create new chat session" w.
Proof.
  intros Hu Hw i sid w0.
  assert (E0 : w0 = withTasks (tasks w ++ [AwaitNewChat u]) w).
  { subst w0. unfold step, handle, createNewSession. rewrite Hu.
    now apply AppFacts.runEffects_same. }
  assert (Hlook : tasks w0 !! i = Some (AwaitNewChat u))
    by (rewrite E0; wnorm; now apply list_lookup_middle).
  split; [exact E0|]. split; [|split].
  - unfold step at 1, handle. rewrite Hlook.
    cbn [settle]. unfold addSession. cbn [fst snd].
    rewrite (runEffects_selected w0 _ u sid); rewrite ?E0; wnorm; try assumption;
      try reflexivity.
    subst i. rewrite delete_middle, app_nil_r. destruct w; reflexivity.
  - unfold addSession. simpl. now rewrite lookup_insert_eq.
  - rewrite (AppFacts.step_settle w0 _ i _ (Rejected m) _ Hlook eq_refl) by reflexivity.
    rewrite E0. wnorm. subst i. rewrite delete_middle, app_nil_r.
    destruct w; reflexivity.
Qed.

(** X17: deleting the current session clears the selection and the view
    and releases the messages listener at once, before the store answers.
    When the delete is committed the session document is gone and the
    stored messages are left as they are; when it is rejected the
    document is still there, the error is shown, and the selection stays
    cleared. *)
Theorem delete_current_session (w : world) (u : userId) (sid : sessionId) (m : string) :
  user w = Some u -> currentSessionId w = Some sid -> wellSubscribed w ->
  let i := length (tasks w) in
  let w0 := step w (Delete sid) in
  w0 = withMessagesListener None
         (withTasks (tasks w ++ [AwaitDelete u sid])
            (setMessages [] (setCurrentSessionId None w))) /\
  (let w1 := step w0 (Settle i Fulfilled) in
   sessionDocs (db w1) !! (u, sid) = None /\
   messageDocs (db w1) = messageDocs (db w) /\
   currentSessionId w1 = None /\ tasks w1 = tasks w) /\
  (let w2 := step w0 (Settle i (Rejected m)) in
   db w2 = db w /\ error w2 = "Failed to delete chat session" /\
   currentSessionId w2 = None /\ messages w2 = [] /\ tasks w2 = tasks w).
Proof.
  intros Hu Hc Hw i w0.
  assert (E0 : w0 = withMessagesListener None
                      (withTasks (tasks w ++ [AwaitDelete u sid])
                         (setMessages [] (setCurrentSessionId None w)))).
  { subst w0. unfold step, handle, deleteSession. rewrite Hu, Hc.
    rewrite decide_True by reflexivity.
    apply (runEffects_deselected w _ u); wnorm; auto. }
  assert (Hlook : tasks w0 !! i = Some (AwaitDelete u sid))
    by (rewrite E0; wnorm; now apply list_lookup_middle).
  split; [exact E0|]. split.
  - cbv zeta.
    rewrite (AppFacts.step_settle w0 _ i _ Fulfilled _ Hlook eq_refl) by reflexivity.
    rewrite E0. wnorm. unfold deleteSessionDoc. simpl.
    rewrite lookup_delete_eq. subst i. rewrite delete_middle, app_nil_r.
    repeat split.
  - cbv zeta.
    rewrite (AppFacts.step_settle w0 _ i _ (Rejected m) _ Hlook eq_refl) by reflexivity.
    rewrite E0. wnorm. subst i. rewrite delete_middle, app_nil_r.
    repeat split.
Qed.

(** Deleting a session that is not the current one leaves the selection,
    the view and the listener alone. *)
Lemma delete_other_session (w : world) (u : userId) (cur sid : sessionId) :
  user w = Some u -> currentSessionId w = Some cur -> sid <> cur ->
  step w (Delete sid) = withTasks (tasks w ++ [AwaitDelete u sid]) w.
Proof.
  intros Hu Hc Hne. unfold step, handle, deleteSession. rewrite Hu, Hc.
  rewrite decide_False by congruence.
  now apply AppFacts.runEffects_same.
Qed.

End Lifecycle.

Section Identity.
Context {cleaner : RemoveMarkdown}.






(** X19: signing out resets the component: no user, no sessions listed,
    no session selected, no message shown, both listeners released. The
    store, the handlers still pending and the loading flag are left as
    they are. A direct change to another user resets the selection and
    the view and rebinds the sessions listener, but the session list is
    kept until the first snapshot of the new user arrives. *)
Theorem identity_change (w : world) (u v : userId) :
  user w = Some u ->
  step w (AuthStateChanged None)
  = withMessagesListener None (withSessionsListener None
      (setMessages [] (setCurrentSessionId None (setSessions [] (setUser None w))))) /\
  (v <> u ->
   step w (AuthStateChanged (Some v))
   = withMessagesListener None (withSessionsListener (Some v)
       (setMessages [] (setCurrentSessionId None (setUser (Some v) w))))).
Proof.
  intros Hu. split; [|intros Hv];
    unfold step, handle, onAuthState, runEffects, sessionsEffect, messagesEffect, scope;
    destruct w; simpl in *; subst;
    repeat (case_decide || case_match); simplify_eq/=; reflexivity.
Qed.

(** X20: selecting a session rebinds the messages listener to it and
    leaves the view as it was; the first snapshot of the selected session
    then replaces the view. *)
Theorem select_then_snapshot (w : world) (u : userId) (b : sessionId)
    (docs : list message) :
  user w = Some u -> wellSubscribed w ->
  let w1 := step w (Select b) in
  w1 = withMessagesListener (Some (u, b)) (setCurrentSessionId (Some b) w) /\
  messages w1 = messages w /\
  step w1 (MessagesSnapshot u b docs) = setMessages docs w1.
Proof.
  intros Hu Hw w1.
  assert (E1 : w1 = withMessagesListener (Some (u, b)) (setCurrentSessionId (Some b) w)).
  { subst w1. unfold step, handle. rewrite Hu.
    apply (runEffects_selected w _ u b); wnorm; auto. }
  split; [exact E1|]. split; [now rewrite E1|].
  unfold step, handle, deliverMessages, onMessagesSnapshot.
  rewrite decide_True by now rewrite E1.
  now apply AppFacts.runEffects_same.
Qed.

End Identity.

(** ** The session menu *)

Module MenuFacts.

Lemma alter_back (f g : session -> session) (k : nat * nat) (m : gmap (nat * nat) session) :
  (forall d, m !! k = Some d -> f (g d) = d) -> alter f k (alter g k m) = m.
Proof.
  intros H. apply map_eq. intros j. destruct (decide (j = k)) as [->|Hne].
  - rewrite !lookup_alter_eq. destruct (m !! k) as [d|] eqn:E; simpl; [|reflexivity].
    now rewrite (H d eq_refl).
  - now rewrite !lookup_alter_ne by congruence.
Qed.

Lemma alter_twice (f : session -> session) (k : nat * nat) (m : gmap (nat * nat) session) :
  (forall d, f (f d) = f d) -> alter f k (alter f k m) = alter f k m.
Proof.
  intros H. apply map_eq. intros j. destruct (decide (j = k)) as [->|Hne].
  - rewrite !lookup_alter_eq. destruct (m !! k); simpl; [now rewrite H | reflexivity].
  - now rewrite !lookup_alter_ne by congruence.
Qed.

End MenuFacts.

(** X21: a rename never stores a blank title and never stores white space
    around a title. With a blank text nothing is written and the rename
    field closes; otherwise the only possible change to the store is that
    the document of that session, if it exists, gets the trimmed text as
    title, which is not empty and which trimming leaves unchanged, with
    its id, creation time and pin state kept. Messages are not touched. *)
Theorem rename_stores_trimmed_title (sid : sessionId) (o : writeOutcome)
    (sb : sidebar) (w : world) (u : userId) :
  user w = Some u ->
  let t := Js.trim (newSessionTitle sb) in
  let r := handleRenameSubmit sid o sb w in
  (Js.truthy t = false -> r = (Sidebar (activeOptions sb) None (newSessionTitle sb), w)) /\
  (forall k, k <> (u, sid) -> sessionDocs (db r.2) !! k = sessionDocs (db w) !! k) /\
  (sessionDocs (db r.2) !! (u, sid) = sessionDocs (db w) !! (u, sid) \/
   exists d,
     sessionDocs (db w) !! (u, sid) = Some d /\
     sessionDocs (db r.2) !! (u, sid)
     = Some (Session (sessId d) t (createdAt d) (isPinned d)) /\
     Js.truthy t = true /\ Js.trim t = t) /\
  messageDocs (db r.2) = messageDocs (db w).
Proof.
  intros Hu t r. subst r. unfold handleRenameSubmit. rewrite Hu. fold t.
  destruct (Js.truthy t) eqn:Ht; simpl.
  - split; [discriminate|]. destruct o; wnorm.
    + split; [|split; [|reflexivity]].
      * intros k Hk. unfold updateTitle. simpl. now rewrite lookup_alter_ne by congruence.
      * unfold updateTitle. simpl. rewrite lookup_alter_eq.
        destruct (sessionDocs (db w) !! (u, sid)) as [d|] eqn:E; [right | now left].
        exists d. repeat split. apply TitleMore.trim_idempotent.
    + repeat split; auto.
  - repeat split; auto.
Qed.

(** X22: a pin toggle writes the opposite of the pin state of the
    rendering that was clicked, not of the stored one. On an up-to-date
    rendering it flips the stored flag and keeps id, title and creation
    time; a second click on the same rendering writes the same value and
    changes nothing more, and a click on the refreshed rendering restores
    the store as it was. *)
Theorem toggle_pin (s d : session) (sb : sidebar) (w : world) (u : userId) :
  user w = Some u ->
  sessionDocs (db w) !! (u, sessId s) = Some d ->
  sessId d = sessId s -> isPinned d = isPinned s ->
  let r := handleTogglePin s Committed sb w in
  let s' := Session (sessId d) (title d) (createdAt d) (negb (isPinned s)) in
  sessionDocs (db r.2) !! (u, sessId s) = Some s' /\
  db (handleTogglePin s Committed r.1 r.2).2 = db r.2 /\
  db (handleTogglePin s' Committed r.1 r.2).2 = db w.
Proof.
  intros Hu Hd Hid Hpin r s'. subst r s'.
  unfold handleTogglePin. rewrite Hu. wnorm. cbn [fst snd]. wnorm. rewrite Hu. wnorm.
  cbn [fst snd]. wnorm. unfold updatePinned. simpl.
  split; [|split].
  - rewrite lookup_alter_eq, Hd. reflexivity.
  - rewrite MenuFacts.alter_twice; [reflexivity|]. reflexivity.
  - rewrite Hid, negb_involutive. rewrite MenuFacts.alter_back; [now destruct (db w)|].
    intros d' Hd'. rewrite Hd in Hd'. injection Hd' as <-. simpl.
    rewrite <- Hpin. now destruct d.
Qed.

Lemma toggle_pin_witness :
  let w := run (cleaner := plainAnswer) (mounted emptyStore)
             [AuthStateChanged (Some 7); NewChat; Settle 0 Fulfilled] in
  let s := Session 0 "New Analysis" (Some 0%Z) false in
  sessionDocs (db (handleTogglePin s Committed (Sidebar (Some 0) None "") w).2) !! (7, 0)
  = Some (Session 0 "New Analysis" (Some 0%Z) true).
Proof.
  cbv zeta.
  set (w := run (cleaner := plainAnswer) (mounted emptyStore)
              [AuthStateChanged (Some 7); NewChat; Settle 0 Fulfilled]).
  assert (Hu : user w = Some 7) by (vm_compute; reflexivity).
  assert (Hd : sessionDocs (db w) !! (7, 0)
               = Some (Session 0 "New Analysis" (Some 0%Z) false))
    by (vm_compute; reflexivity).
  exact (proj1 (toggle_pin (Session 0 "New Analysis" (Some 0%Z) false)
                  (Session 0 "New Analysis" (Some 0%Z) false)
                  (Sidebar (Some 0) None "") w 7 Hu Hd eq_refl eq_refl)).
Defined.

Lemma rename_stores_trimmed_title_witness :
  let w := run (cleaner := plainAnswer) (mounted emptyStore)
             [AuthStateChanged (Some 7); NewChat; Settle 0 Fulfilled] in
  handleRenameSubmit 0 Committed (Sidebar None (Some 0) "   ") w
  = (Sidebar None None "   ", w).
Proof.
  cbv zeta.
  set (w := run (cleaner := plainAnswer) (mounted emptyStore)
              [AuthStateChanged (Some 7); NewChat; Settle 0 Fulfilled]).
  assert (Hu : user w = Some 7) by (vm_compute; reflexivity).
  apply (proj1 (rename_stores_trimmed_title 0 Committed
                  (Sidebar None (Some 0) "   ") w 7 Hu)).
  vm_compute. reflexivity.
Defined.

(** ** Firebase initialisation *)

Module InitFacts.

(** The name derived from each key is the variable the key is read from. *)
Lemma missingVar_table :
  Forall (fun kv : string * string => missingVar kv.1 = kv.2) firebaseConfigVars.
Proof. repeat constructor. Qed.

Lemma missing_names (env : string -> option string) (table : list (string * string)) :
  Forall (fun kv : string * string => missingVar kv.1 = kv.2) table ->
  map missingVar
    (map fst (filter (fun kv : string * option string => negb (present kv.2) = true)
                (map (fun kv : string * string => (kv.1, env kv.2)) table)))
  = List.filter (fun v => negb (present (env v))) (map snd table).
Proof.
  induction 1 as [|[k v] table Hkv _ IH]; [reflexivity|].
  simpl map at 3. rewrite filter_cons. simpl in Hkv. simpl List.filter. simpl map at 4.
  simpl List.filter.
  destruct (negb (present (env v))) eqn:E.
  - rewrite decide_True by exact E. simpl. now rewrite IH, Hkv.
  - rewrite decide_False by (simpl; congruence). exact IH.
Qed.

End InitFacts.

(** X23: initialisation fails exactly when a configuration value is
    missing or empty, or the Firebase calls throw. When values are missing
    the error names, in the order of the configuration, exactly the
    environment variables that are absent or empty, each by the name it is
    read from; otherwise the error is the one of the Firebase calls, if
    any. *)
Theorem initializationError_reports_missing (env : string -> option string)
    (sdk : option string) :
  let missing := List.filter (fun v => negb (present (env v)))
                   (map snd firebaseConfigVars) in
  initializationError env sdk
  = match missing with
    | [] => sdk
    | _ => Some ("The following environment variables are missing: "
                 +:+ String.concat ", " missing
                 +:+ ". Please check your root .env file.")
    end.
Proof.
  cbv zeta.
  pose proof (InitFacts.missing_names env firebaseConfigVars InitFacts.missingVar_table)
    as H.
  unfold initializationError. fold (firebaseConfig env) in H. fold (missingKeys env) in H.
  rewrite <- H. now destruct (missingKeys env).
Qed.

(** ** The login screen *)

(** X24: whatever the screen showed before, an attempt ends with the
    spinner off and the fields untouched. The email form always calls the
    operation of the mode it is in and shows the message of a rejection;
    the Google button shows the message of a rejection unless the user
    closed the popup, which is never reported. An error of an earlier
    attempt does not survive a later one. *)
Theorem login_attempts (l : loginScreen) (o : authOutcome) (code m : string) :
  let byMail := (handleAuthAction o l).2 in
  let byGoogle := (handleGoogleSignIn (AuthError code m) l).2 in
  (loading byMail = false /\ email byMail = email l /\ password byMail = password l /\
   isSignUp byMail = isSignUp l) /\
  (handleAuthAction o l).1
  = (if isSignUp l then CreateUserWithEmailAndPassword (email l) (password l)
     else SignInWithEmailAndPassword (email l) (password l)) /\
  loginError (handleAuthAction (AuthError code m) l).2 = m /\
  loginError (handleGoogleSignIn (AuthError "auth/popup-closed-by-user" m) byMail).2 = "" /\
  (code <> "auth/popup-closed-by-user" -> loginError byGoogle = m) /\
  loginError (handleAuthAction Authenticated byGoogle).2 = "" /\
  loading byGoogle = false.
Proof.
  cbv zeta. unfold handleAuthAction, handleGoogleSignIn. simpl.
  repeat split. intros Hc. apply String.eqb_neq in Hc. now rewrite Hc.
Qed.

Lemma login_attempts_witness :
  loginError (handleGoogleSignIn (AuthError "auth/network-request-failed" "Network error")
                (LoginScreen "a@b.c" "secret" false "" false)).2 = "Network error".
Proof.
  apply (login_attempts (LoginScreen "a@b.c" "secret" false "" false) Authenticated
           "auth/network-request-failed" "Network error").
  intros H. discriminate H.
Defined.

(** ** The message bubbles *)

(** X25: what the chat window shows for the assistant turn of a
    successful exchange, the first of its session or not. The session
    gains the user turn and then the assistant turn, whose stored text is
    the cleaned answer; its bubble cleans that text once more; when the
    cleaned answer is empty the turn is stored all the same, with an empty
    text, and its bubble shows the typing indicator instead of a text,
    next to its sources. *)
Theorem assistant_turn_bubble `{RemoveMarkdown} (w : world) (i : nat) (x : exchange)
    (answer : string) (srcs : list source) :
  tasks w !! i = Some (AwaitUserTurn x) ->
  let first := exIsNew x || Nat.eqb (length (exHistory x)) 0 in
  let w' := run w ([Settle i Fulfilled; Settle i (Responded (Ok200 answer srcs));
                    Settle i Fulfilled]
                   ++ (if first then [Settle i Fulfilled] else [])) in
  let turn := Message bot (removeMarkdown answer) (Some srcs) (clock (db w) + 1) in
  storedMessages (db w') (exUser x) (exSession x)
  = storedMessages (db w) (exUser x) (exSession x)
    ++ [Message user_ (exQuery x) None (clock (db w)); turn] /\
  isLoading w' = false /\
  (Js.truthy (removeMarkdown answer) = true ->
   Js.truthy (removeMarkdown (removeMarkdown answer)) = true ->
   renderMessage turn = (Paragraph (removeMarkdown (removeMarkdown answer)), srcs)) /\
  (removeMarkdown answer = "" -> renderMessage turn = (TypingIndicator, srcs)).
Proof.
  intros Ht first w' turn.
  assert (Hstored : storedMessages (db w') (exUser x) (exSession x)
                    = storedMessages (db w) (exUser x) (exSession x)
                      ++ [Message user_ (exQuery x) None (clock (db w)); turn]
                    /\ isLoading w' = false).
  { subst w'. destruct first eqn:Hfirst; subst first.
    - simpl app. rewrite (exchange_success_retitled w i x answer srcs Ht Hfirst).
      wnorm. rewrite StoreFacts.storedMessages_updateTitle. unfold answered.
      rewrite !StoreFacts.storedMessages_addMessage, <- app_assoc. split; reflexivity.
    - simpl app. rewrite (exchange_success_plain w i x answer srcs Ht Hfirst).
      wnorm. unfold answered.
      rewrite !StoreFacts.storedMessages_addMessage, <- app_assoc. split; reflexivity. }
  destruct Hstored as [Hm Hl]. split; [exact Hm|]. split; [exact Hl|]. split.
  - intros H1 H2. unfold renderMessage, renderBody, cleanText. simpl.
    now rewrite H1, H2.
  - intros E. unfold renderMessage, renderBody, cleanText. simpl.
    rewrite E. reflexivity.
Qed.

(** ** The further theorems at concrete states *)

Lemma history_is_view_at_submission_witness :
  let seen := [Message user_ "Who governs Kaliningrad" None 0;
               Message bot "Russia" (Some []) 1] in
  let w := run (cleaner := plainAnswer) (mounted emptyStore)
             [AuthStateChanged (Some 7); Select 3; MessagesSnapshot 7 3 seen;
              Input "Since when"] in
  let late := seen ++ [Message user_ "Since when" None 2] in
  let w1 := run (cleaner := plainAnswer) (step (cleaner := plainAnswer) w Submit)
              (map (MessagesSnapshot 7 3) [late]) in
  fetches (step (cleaner := plainAnswer) w1 (Settle (length (tasks w)) Fulfilled))
  = fetches w ++
    [Request (userInput w) (map (fun msg => (msgSender msg, text msg)) (messages w))].
Proof.
  cbv zeta.
  apply (history_is_view_at_submission (cleaner := plainAnswer) _ 7 3);
    vm_compute; reflexivity.
Defined.

Lemma implicit_creation_rejected_witness :
  let w := run (cleaner := plainAnswer) (mounted emptyStore)
             [AuthStateChanged (Some 7); Input "Explain the Schengen area"] in
  run (cleaner := plainAnswer) w [Submit; Settle (length (tasks w)) (Rejected "offline")]
  = setError "Failed to create new chat session" w.
Proof.
  cbv zeta.
  apply (implicit_creation_rejected (cleaner := plainAnswer) _ 7 "offline");
    vm_compute; reflexivity.
Defined.

Lemma title_write_rejected_witness :
  let x := Exchange 7 3 "Who governs Kaliningrad" false [] in
  let w := run (cleaner := plainAnswer) (mounted emptyStore)
             [AuthStateChanged (Some 7); Select 3;
              Input "Who governs Kaliningrad"; Submit] in
  let w' := run (cleaner := plainAnswer) w
              [Settle 0 Fulfilled; Settle 0 (Responded (Ok200 "Russia" []));
               Settle 0 Fulfilled; Settle 0 (Rejected "not-found"); Settle 0 Fulfilled] in
  error w' = "Sorry, the analysis failed: not-found" /\ isLoading w' = false.
Proof.
  cbv zeta.
  set (w := run (cleaner := plainAnswer) (mounted emptyStore)
              [AuthStateChanged (Some 7); Select 3;
               Input "Who governs Kaliningrad"; Submit]).
  assert (Ht : tasks w !! 0
               = Some (AwaitUserTurn (Exchange 7 3 "Who governs Kaliningrad" false [])))
    by (vm_compute; reflexivity).
  destruct (title_write_rejected (cleaner := plainAnswer) w 0 _ "Russia" "not-found"
              [] Ht eq_refl) as (_ & _ & He & Hl & _).
  split; [exact He | exact Hl].
Defined.

Lemma new_chat_witness :
  let w := run (cleaner := plainAnswer) (mounted emptyStore) [AuthStateChanged (Some 7)] in
  step (cleaner := plainAnswer) (step (cleaner := plainAnswer) w NewChat)
    (Settle (length (tasks w)) (Rejected "offline"))
  = setError "Failed to create new chat session" w.
Proof.
  cbv zeta.
  set (w := run (cleaner := plainAnswer) (mounted emptyStore) [AuthStateChanged (Some 7)]).
  assert (Hu : user w = Some 7) by (vm_compute; reflexivity).
  assert (Hw : wellSubscribed w) by (vm_compute; reflexivity).
  exact (proj2 (proj2 (proj2 (new_chat (cleaner := plainAnswer) w 7 "offline" Hu Hw)))).
Defined.

Lemma delete_current_session_witness :
  let w := run (cleaner := plainAnswer) (mounted emptyStore)
             [AuthStateChanged (Some 7); NewChat; Settle 0 Fulfilled] in
  let w0 := step (cleaner := plainAnswer) w (Delete 0) in
  currentSessionId w = Some 0 /\
  w0 = withMessagesListener None
         (withTasks (tasks w ++ [AwaitDelete 7 0])
            (setMessages [] (setCurrentSessionId None w))).
Proof.
  cbv zeta.
  set (w := run (cleaner := plainAnswer) (mounted emptyStore)
              [AuthStateChanged (Some 7); NewChat; Settle 0 Fulfilled]).
  assert (Hu : user w = Some 7) by (vm_compute; reflexivity).
  assert (Hc : currentSessionId w = Some 0) by (vm_compute; reflexivity).
  assert (Hw : wellSubscribed w) by (vm_compute; reflexivity).
  split; [exact Hc|].
  exact (proj1 (delete_current_session (cleaner := plainAnswer) w 7 0 "" Hu Hc Hw)).
Defined.


Lemma identity_change_witness :
  let w := run (cleaner := plainAnswer) (mounted emptyStore)
             [AuthStateChanged (Some 7);
              SessionsSnapshot 7 [Session 0 "Mine" (Some 5%Z) false]; Select 0] in
  let w' := step (cleaner := plainAnswer) w (AuthStateChanged None) in
  sessions w = [Session 0 "Mine" (Some 5%Z) false] /\
  sessions w' = [] /\ currentSessionId w' = None /\ messagesListener w' = None.
Proof.
  cbv zeta.
  set (w := run (cleaner := plainAnswer) (mounted emptyStore)
              [AuthStateChanged (Some 7);
               SessionsSnapshot 7 [Session 0 "Mine" (Some 5%Z) false]; Select 0]).
  assert (Hu : user w = Some 7) by (vm_compute; reflexivity).
  split; [vm_compute; reflexivity|].
  rewrite (proj1 (identity_change (cleaner := plainAnswer) w 7 7 Hu)).
  repeat split.
Defined.

Lemma select_then_snapshot_witness :
  let w := run (cleaner := plainAnswer) (mounted emptyStore)
             [AuthStateChanged (Some 7); Select 3;
              MessagesSnapshot 7 3 [Message user_ "Who governs Kaliningrad" None 0]] in
  let w1 := step (cleaner := plainAnswer) w (Select 4) in
  messages w1 = [Message user_ "Who governs Kaliningrad" None 0] /\
  messages (step (cleaner := plainAnswer) w1 (MessagesSnapshot 7 4 [])) = [].
Proof.
  cbv zeta.
  set (w := run (cleaner := plainAnswer) (mounted emptyStore)
              [AuthStateChanged (Some 7); Select 3;
               MessagesSnapshot 7 3 [Message user_ "Who governs Kaliningrad" None 0]]).
  assert (Hu : user w = Some 7) by (vm_compute; reflexivity).
  assert (Hw : wellSubscribed w) by (vm_compute; reflexivity).
  destruct (select_then_snapshot (cleaner := plainAnswer) w 7 4 [] Hu Hw)
    as (_ & Hm & Hs).
  split; [rewrite Hm; vm_compute; reflexivity | now rewrite Hs].
Defined.

Lemma assistant_turn_bubble_witness :
  let seen := [Message user_ "Who governs Kaliningrad" None 0;
               Message bot "Russia" (Some []) 1] in
  let w := run (cleaner := plainAnswer) (mounted emptyStore)
             [AuthStateChanged (Some 7); Select 3; MessagesSnapshot 7 3 seen;
              Input "Since when"; Submit] in
  let w' := run (cleaner := plainAnswer) w
              [Settle 0 Fulfilled; Settle 0 (Responded (Ok200 "" [])); Settle 0 Fulfilled] in
  storedMessages (db w') 7 3
  = storedMessages (db w) 7 3
    ++ [Message user_ "Since when" None (clock (db w));
        Message bot "" (Some []) (clock (db w) + 1)] /\
  renderMessage (H := plainAnswer) (Message bot "" (Some []) (clock (db w) + 1))
  = (TypingIndicator, []).
Proof.
  cbv zeta.
  set (w := run (cleaner := plainAnswer) (mounted emptyStore)
              [AuthStateChanged (Some 7); Select 3;
               MessagesSnapshot 7 3 [Message user_ "Who governs Kaliningrad" None 0;
                                     Message bot "Russia" (Some []) 1];
               Input "Since when"; Submit]).
  assert (Ht : tasks w !! 0
               = Some (AwaitUserTurn
                         (Exchange 7 3 "Since when" false
                            [Message user_ "Who governs Kaliningrad" None 0;
                             Message bot "Russia" (Some []) 1])))
    by (vm_compute; reflexivity).
  destruct (assistant_turn_bubble (H := plainAnswer) w 0 _ "" [] Ht)
    as (Hm & _ & _ & Hr).
  split; [exact Hm | exact (Hr eq_refl)].
Defined.
